(** * Vaultix SDK: the HTTP client (src/client.ts) and the SDK facade
      (src/vaultix.ts), embedded as Rocq functions.

    The client is the only part of the SDK with behaviour of its own:
    configuration checking and defaulting in the constructor, the
    [isTestMode] getter, and the [request] executor with its retry loop,
    back-off delay and error translation.  The network is modelled as a
    script of outcomes, one per [fetch] call, and [request] as a function
    that consumes the script and records what it did. *)

From Stdlib Require Import ZArith List String Ascii Bool Lia DecimalString.
Import ListNotations.
Local Open Scope string_scope.
Local Open Scope list_scope.
Set Warnings "-register-all".

(** ** JavaScript values, as far as the client looks at them *)

Module Js.

(** A JavaScript number.  The client only holds millisecond counts, retry
    counts and HTTP statuses, so finite numbers are integers here; the
    three non-finite doubles are kept because [||], [??], [<] and [>=]
    treat them differently. *)
Inductive Number : Type :=
| Fin (z : Z)
| NaN
| PosInf
| NegInf.

Inductive Value : Type :=
| VUndefined
| VNull
| VBool (b : bool)
| VNum (n : Number)
| VStr (s : string)
| VArr (items : list Value)
| VObj (props : list (string * Value)).

(** An optional property of an object handed in by the caller: absent
    ([undefined]), [null], or given. *)
Inductive Optional (A : Type) : Type :=
| Undefined
| Null
| Given (a : A).
Arguments Undefined {A}.
Arguments Null {A}.
Arguments Given {A} a.

(** What a [throw] carries: an [Error] instance with its [name] and
    [message], or any other value. *)
Inductive Thrown : Type :=
| ThrownError (name message : string)
| ThrownValue (v : Value).

(** ToBoolean. *)
Definition number_truthy (n : Number) : bool :=
  match n with
  | Fin z => negb (z =? 0)%Z
  | NaN => false
  | PosInf | NegInf => true
  end.

Definition string_truthy (s : string) : bool :=
  match s with
  | EmptyString => false
  | String _ _ => true
  end.

Definition truthy (v : Value) : bool :=
  match v with
  | VUndefined | VNull => false
  | VBool b => b
  | VNum n => number_truthy n
  | VStr s => string_truthy s
  | VArr _ | VObj _ => true
  end.

(** [value !== undefined && value !== null] is [negb (nullish value)]. *)
Definition nullish (v : Value) : bool :=
  match v with
  | VUndefined | VNull => true
  | _ => false
  end.

(** [a || d] on an optional property. *)
Definition or_default {A : Type} (is_truthy : A -> bool)
    (a : Optional A) (d : A) : A :=
  match a with
  | Given x => if is_truthy x then x else d
  | Undefined | Null => d
  end.

(** [a ?? d] on an optional property. *)
Definition coalesce {A : Type} (a : Optional A) (d : A) : A :=
  match a with
  | Given x => x
  | Undefined | Null => d
  end.

(** [a < b] and [a >= b] on numbers; both are false when either side is
    NaN. *)
Definition num_lt (a b : Number) : bool :=
  match a, b with
  | NaN, _ | _, NaN => false
  | Fin x, Fin y => (x <? y)%Z
  | NegInf, NegInf => false
  | NegInf, _ => true
  | _, NegInf => false
  | PosInf, _ => false
  | Fin _, PosInf => true
  end.

Definition num_ge (a b : Number) : bool :=
  match a, b with
  | NaN, _ | _, NaN => false
  | Fin x, Fin y => (x >=? y)%Z
  | _, NegInf => true
  | NegInf, _ => false
  | PosInf, _ => true
  | Fin _, PosInf => false
  end.

Arguments num_lt : simpl never.
Arguments num_ge : simpl never.

(** [s.startsWith(p)]. *)
Definition startsWith (s p : string) : bool := String.prefix p s.

Fixpoint lookup (key : string) (props : list (string * Value)) : Value :=
  match props with
  | [] => VUndefined
  | (k, v) :: rest => if String.eqb k key then v else lookup key rest
  end.

(** [v.key] for the member names the client reads ([error], [message],
    [type], [code], [param], [doc_url]): none of them is defined on the
    prototypes of strings, numbers, booleans or arrays, so they read as
    [undefined] there; on [null] and [undefined] the access throws a
    TypeError, which is [None]. *)
Definition member (v : Value) (key : string) : option Value :=
  match v with
  | VUndefined | VNull => None
  | VObj props => Some (lookup key props)
  | VBool _ | VNum _ | VStr _ | VArr _ => Some VUndefined
  end.

End Js.

Import Js.

(** ** What the platform provides

    [URL_valid input base] tells whether [new URL(input, base)] parses (it
    throws a TypeError otherwise); [ToString] is the conversion behind
    [String(value)] and template literals. *)
Record Host : Type := {
  URL_valid : string -> string -> bool;
  ToString : Value -> string
}.

(** ** Types of the SDK *)

(** The [VaultixConfig] interface of the SDK's type declarations: a
    required secret key ("sk_live_... or sk_test_...") and three optional
    settings, the base URL, the request timeout in milliseconds and the
    "maximum retry attempts for failed requests".  An optional property may
    also be handed in as [null] by an untyped caller. *)
Module Config.
Record VaultixConfig : Type := {
  secretKey : string;
  baseUrl : Optional string;
  timeout : Optional Number;
  maxRetries : Optional Number
}.
End Config.

Definition DEFAULT_BASE_URL : string := "https://console.velon.app/api".
Definition DEFAULT_TIMEOUT : Number := Fin 30000.
Definition DEFAULT_MAX_RETRIES : Number := Fin 3.

Record VaultixAPIError : Type := {
  name : string;
  message : string;
  type : Value;
  code : Value;
  param : Value;
  docUrl : Value;
  statusCode : Z
}.

Record VaultixClient : Type := {
  secretKey : string;
  baseUrl : string;
  timeout : Number;
  maxRetries : Number
}.

Inductive Method : Type := GET | POST | PUT | DELETE.

(** A [Record<string, unknown>] as [Object.entries] lists it. *)
Definition Entries : Type := list (string * Value).

(** The [URL] object: the two constructor arguments and the pairs appended
    to [searchParams] since. *)
Record URL : Type := {
  url_input : string;
  url_base : string;
  searchParams : list (string * string)
}.

(** The request body handed to [fetch]: [JSON.stringify(data)], kept as the
    serialisation of [data]. *)
Inductive Body : Type :=
| JSON_stringify (data : Entries).

(** One call of [fetch]: the URL, the init object, and the delay after
    which the abort timer armed just before it fires. *)
Record FetchCall : Type := {
  fc_url : URL;
  fc_method : Method;
  fc_headers : list (string * string);
  fc_body : option Body;
  fc_abortAfter : Number
}.

Inductive Event : Type :=
| EvFetch (call : FetchCall)
| EvSleep (ms : Z).

(** How [response.json()] ends.  The abort timer is cleared before the body
    is read, so reading fails only with a SyntaxError (malformed JSON) or a
    TypeError (broken body stream). *)
Inductive BodyFailure : Type := SyntaxError | TypeError.

Inductive BodyRead : Type :=
| Parsed (json : Value)
| Unreadable (kind : BodyFailure) (msg : string).

(** How one [fetch] call ends: a response with its status and body, or a
    rejection (an [AbortError] when the timer fired, anything else for a
    transport failure). *)
Inductive FetchOutcome : Type :=
| Responded (status : Z) (body : BodyRead)
| Rejected (reason : Thrown).

Inductive Exn : Type :=
| ExnAPI (e : VaultixAPIError)
| ExnOther (t : Thrown).

(** How the promise returned by [request] settles; [Starved] when the
    script of network outcomes ends while a [fetch] is still pending. *)
Inductive Completion : Type :=
| Return (json : Value)
| Throw (e : Exn)
| Starved.

(** A run of [request]: how it settled, the client object afterwards,
    what it did, and the network outcomes it left unread. *)
Record Run : Type := {
  completion : Completion;
  self : VaultixClient;
  trace : list Event;
  unread : list FetchOutcome
}.

(** ** The client *)

Definition new_VaultixAPIError (host : Host) (error : Value)
    (status : Z) : VaultixAPIError :=
  let get key := match member error key with Some v => v | None => VUndefined end in
  {| name := "VaultixAPIError";
     message := match get "message" with
                | VUndefined => ""
                | m => ToString host m
                end;
     type := get "type";
     code := get "code";
     param := get "param";
     docUrl := get "doc_url";
     statusCode := status |}.

Definition new_VaultixClient (config : Config.VaultixConfig)
    : Thrown + VaultixClient :=
  if negb (string_truthy (Config.secretKey config)) then
    inl (ThrownError "Error" "Secret key is required")
  else if negb (startsWith (Config.secretKey config) "sk_") then
    inl (ThrownError "Error"
           "Invalid secret key format. Must start with sk_live_ or sk_test_")
  else
    inr {| secretKey := Config.secretKey config;
           baseUrl := or_default string_truthy (Config.baseUrl config) DEFAULT_BASE_URL;
           timeout := or_default number_truthy (Config.timeout config) DEFAULT_TIMEOUT;
           maxRetries := coalesce (Config.maxRetries config) DEFAULT_MAX_RETRIES |}.

Definition isTestMode (this : VaultixClient) : bool :=
  startsWith (secretKey this) "sk_test_".

Definition shouldRetry (this : VaultixClient) (statusCode : Z)
    (retryCount : nat) : bool :=
  if num_ge (Fin (Z.of_nat retryCount)) (maxRetries this) then false
  else (statusCode >=? 500)%Z || (statusCode =? 429)%Z.

(** [Math.min(1000 * Math.pow(2, retryCount), 10000)].  On doubles the power
    overflows to Infinity from [retryCount = 1024] on, and the minimum is
    10000 there as it is on integers. *)
Definition getRetryDelay (retryCount : nat) : Z :=
  Z.min (1000 * 2 ^ Z.of_nat retryCount) 10000.

(** [response.ok]: the status is in the range 200-299. *)
Definition response_ok (status : Z) : bool :=
  (200 <=? status)%Z && (status <=? 299)%Z.

Definition is_AbortError (t : Thrown) : bool :=
  match t with
  | ThrownError n _ => String.eqb n "AbortError"
  | ThrownValue _ => false
  end.

Definition BodyFailure_name (k : BodyFailure) : string :=
  match k with
  | SyntaxError => "SyntaxError"
  | TypeError => "TypeError"
  end.

(** The three object literals the executor passes to [new VaultixAPIError]. *)
Definition unknown_error_literal : Value :=
  VObj [("type", VStr "api_error");
        ("code", VStr "unknown_error");
        ("message", VStr "An unknown error occurred")].

Definition timeout_literal (host : Host) (this : VaultixClient) : Value :=
  VObj [("type", VStr "api_error");
        ("code", VStr "timeout");
        ("message", VStr ("Request timed out after "
                          ++ ToString host (VNum (timeout this)) ++ "ms")%string)].

(** The error a timed-out attempt is turned into. *)
Definition timeout_error (host : Host) (this : VaultixClient)
    : VaultixAPIError :=
  new_VaultixAPIError host (timeout_literal host this) 408.

Definition network_error_literal (error : Thrown) : Value :=
  VObj [("type", VStr "api_error");
        ("code", VStr "network_error");
        ("message", VStr match error with
                         | ThrownError _ m => m
                         | ThrownValue _ => "Network error"
                         end)].

(** [Object.entries(data).forEach(...)]: append every entry whose value is
    neither [undefined] nor [null], converted with [String]. *)
Definition append_params (host : Host) (data : Entries)
    (params : list (string * string)) : list (string * string) :=
  fold_left
    (fun acc (kv : string * Value) =>
       if negb (nullish (snd kv)) then acc ++ [(fst kv, ToString host (snd kv))]
       else acc)
    data params.

(** [new URL(input, base)]; [None] when the constructor throws. *)
Definition new_URL (host : Host) (input base : string) : option URL :=
  if URL_valid host input base then
    Some {| url_input := input; url_base := base; searchParams := [] |}
  else None.

(** [if (method === 'GET' && data) { ... url.searchParams.append ... }]. *)
Definition add_query (host : Host) (method : Method) (data : option Entries)
    (url : URL) : URL :=
  match method, data with
  | GET, Some d =>
      {| url_input := url_input url;
         url_base := url_base url;
         searchParams := append_params host d (searchParams url) |}
  | _, _ => url
  end.

(** The [fetch] call of an attempt. *)
Definition fetch_call (this : VaultixClient) (method : Method) (url : URL)
    (data : option Entries) : FetchCall :=
  {| fc_url := url;
     fc_method := method;
     fc_headers := [("Authorization", ("Bearer " ++ secretKey this)%string);
                    ("Content-Type", "application/json");
                    ("User-Agent", "@vaultix/sdk/1.0.0")];
     fc_body := match method, data with
                | GET, _ => None
                | _, Some d => Some (JSON_stringify d)
                | _, None => None
                end;
     fc_abortAfter := timeout this |}.

(** The [fetch] call of every attempt of one request: the URL is built
    anew from the same arguments each time. *)
Definition request_call (host : Host) (this : VaultixClient) (method : Method)
    (path : string) (data : option Entries) : FetchCall :=
  fetch_call this method
    (add_query host method data
       {| url_input := path; url_base := baseUrl this; searchParams := [] |})
    data.

(** What a block of [request] does with one network outcome: return the
    parsed body, go on to the next attempt (sleep, then call [request] with
    [retryCount + 1]), or throw. *)
Inductive Step : Type :=
| StepReturn (json : Value)
| StepRetry
| StepThrow (e : Exn).

(** The [try] block, from the [fetch] call on. *)
Definition try_block (host : Host) (this : VaultixClient)
    (retryCount : nat) (outcome : FetchOutcome) : Step :=
  match outcome with
  | Rejected reason => StepThrow (ExnOther reason)
  | Responded status (Unreadable kind msg) =>
      StepThrow (ExnOther (ThrownError (BodyFailure_name kind) msg))
  | Responded status (Parsed json) =>
      if negb (response_ok status) then
        if shouldRetry this status retryCount then StepRetry
        else
          match member json "error" with
          | None =>
              StepThrow (ExnOther (ThrownError "TypeError"
                "Cannot read properties of null (reading 'error')"))
          | Some err =>
              StepThrow (ExnAPI (new_VaultixAPIError host
                (if truthy err then err else unknown_error_literal) status))
          end
      else StepReturn json
  end.

(** The [catch] block. *)
Definition catch_block (host : Host) (this : VaultixClient)
    (retryCount : nat) (error : Exn) : Step :=
  match error with
  | ExnAPI _ => StepThrow error
  | ExnOther t =>
      if is_AbortError t then
        StepThrow (ExnAPI (new_VaultixAPIError host (timeout_literal host this) 408))
      else if num_lt (Fin (Z.of_nat retryCount)) (maxRetries this) then StepRetry
      else StepThrow (ExnAPI (new_VaultixAPIError host (network_error_literal t) 0))
  end.

Definition attempt (host : Host) (this : VaultixClient) (retryCount : nat)
    (outcome : FetchOutcome) : Step :=
  match try_block host this retryCount outcome with
  | StepThrow e => catch_block host this retryCount e
  | s => s
  end.

Definition settle (c : Completion) (this : VaultixClient)
    (events : list Event) (net : list FetchOutcome) : Run :=
  {| completion := c; self := this; trace := events; unread := net |}.

(** [events], then the run [r]. *)
Definition preceded_by (events : list Event) (r : Run) : Run :=
  {| completion := completion r;
     self := self r;
     trace := events ++ trace r;
     unread := unread r |}.

(** [request(method, path, data, retryCount)] against the network script
    [net].  The recursive call of the source is the recursive call here; it
    happens after one outcome has been read, so the script gets shorter. *)
Fixpoint request (host : Host) (net : list FetchOutcome) (this : VaultixClient)
    (method : Method) (path : string) (data : option Entries)
    (retryCount : nat) {struct net} : Run :=
  match new_URL host path (baseUrl this) with
  | None => settle (Throw (ExnOther (ThrownError "TypeError" "Invalid URL"))) this [] net
  | Some url =>
      let call := fetch_call this method (add_query host method data url) data in
      match net with
      | [] => settle Starved this [EvFetch call] []
      | outcome :: rest =>
          match attempt host this retryCount outcome with
          | StepReturn json => settle (Return json) this [EvFetch call] rest
          | StepThrow e => settle (Throw e) this [EvFetch call] rest
          | StepRetry =>
              preceded_by [EvFetch call; EvSleep (getRetryDelay retryCount)]
                (request host rest this method path data (S retryCount))
          end
      end
  end.

Definition get (host : Host) (net : list FetchOutcome) (this : VaultixClient)
    (path : string) (params : option Entries) : Run :=
  request host net this GET path params 0.

Definition post (host : Host) (net : list FetchOutcome) (this : VaultixClient)
    (path : string) (data : option Entries) : Run :=
  request host net this POST path data 0.

Definition put (host : Host) (net : list FetchOutcome) (this : VaultixClient)
    (path : string) (data : option Entries) : Run :=
  request host net this PUT path data 0.

Definition delete (host : Host) (net : list FetchOutcome) (this : VaultixClient)
    (path : string) : Run :=
  request host net this DELETE path None 0.

(** ** The facade (src/vaultix.ts)

    The resource objects only hold the client and forward to it, so the
    facade is its client. *)
Module SDK.
Record Vaultix : Type := { client : VaultixClient }.

Definition new_Vaultix (config : Config.VaultixConfig) : Thrown + Vaultix :=
  match new_VaultixClient config with
  | inl e => inl e
  | inr c => inr {| client := c |}
  end.

Definition isTestMode (this : Vaultix) : bool := isTestMode (client this).
End SDK.

(** ** The resource classes

    Each resource object holds the client it was given and forwards to one
    of its helpers; [client] below is its [this.client].  An identifier in
    a template literal is a string and is spliced into the path as it is. *)

Definition Network : Type := list FetchOutcome.

(** The [Charges] class. *)
Module Charges.
Definition create (host : Host) (net : Network) (client : VaultixClient)
    (params : Entries) : Run :=
  post host net client "/v1/charges" (Some params).

Definition retrieve (host : Host) (net : Network) (client : VaultixClient)
    (id : string) : Run :=
  get host net client ("/v1/charges/" ++ id)%string None.

Definition list (host : Host) (net : Network) (client : VaultixClient)
    (params : option Entries) : Run :=
  get host net client "/v1/charges" params.

Definition capture (host : Host) (net : Network) (client : VaultixClient)
    (id : string) (params : option Entries) : Run :=
  post host net client ("/v1/charges/" ++ id ++ "/capture")%string params.

Definition cancel (host : Host) (net : Network) (client : VaultixClient)
    (id : string) : Run :=
  post host net client ("/v1/charges/" ++ id ++ "/cancel")%string None.
End Charges.

(** The [Transactions] class.  [summary] has a default parameter:
    [period = '30d'] when the argument is left out. *)
Module Transactions.
Definition retrieve (host : Host) (net : Network) (client : VaultixClient)
    (id : string) : Run :=
  get host net client ("/v1/transactions/" ++ id)%string None.

Definition list (host : Host) (net : Network) (client : VaultixClient)
    (params : option Entries) : Run :=
  get host net client "/v1/transactions" params.

Definition summary (host : Host) (net : Network) (client : VaultixClient)
    (period : option string) : Run :=
  let period := match period with Some p => p | None => "30d" end in
  get host net client "/v1/transactions/summary"
    (Some [("period", VStr period)]).
End Transactions.

(** The [Sandbox] class (second half of src/resources/tokens.ts). *)
Module Sandbox.
Definition payCharge (host : Host) (net : Network) (client : VaultixClient)
    (chargeId : string) : Run :=
  post host net client ("/v1/sandbox/charges/" ++ chargeId ++ "/pay")%string None.

Definition failCharge (host : Host) (net : Network) (client : VaultixClient)
    (chargeId : string) (params : option Entries) : Run :=
  post host net client ("/v1/sandbox/charges/" ++ chargeId ++ "/fail")%string
    params.

Definition expireCharge (host : Host) (net : Network) (client : VaultixClient)
    (chargeId : string) : Run :=
  post host net client ("/v1/sandbox/charges/" ++ chargeId ++ "/expire")%string
    None.

Definition succeedRefund (host : Host) (net : Network) (client : VaultixClient)
    (refundId : string) : Run :=
  post host net client ("/v1/sandbox/refunds/" ++ refundId ++ "/succeed")%string
    None.

Definition testWebhook (host : Host) (net : Network) (client : VaultixClient)
    (params : option Entries) : Run :=
  post host net client "/v1/sandbox/webhooks/test" params.

Definition listTestCards (host : Host) (net : Network)
    (client : VaultixClient) : Run :=
  get host net client "/v1/sandbox/test-cards" None.
End Sandbox.

(** ** Reading a trace *)

(** The milliseconds slept in all. *)
Definition total (delays : list Z) : Z := fold_right Z.add 0%Z delays.

(** The three headers of every request. *)
Definition request_headers (key : string) : list (string * string) :=
  [("Authorization", ("Bearer " ++ key)%string);
   ("Content-Type", "application/json");
   ("User-Agent", "@vaultix/sdk/1.0.0")].


Fixpoint fetches (events : list Event) : list FetchCall :=
  match events with
  | [] => []
  | EvFetch call :: rest => call :: fetches rest
  | EvSleep _ :: rest => fetches rest
  end.

Fixpoint sleeps (events : list Event) : list Z :=
  match events with
  | [] => []
  | EvFetch _ :: rest => sleeps rest
  | EvSleep ms :: rest => ms :: sleeps rest
  end.

(** [k] failed attempts in a row, the first at retry count [n], each
    followed by its back-off sleep. *)
Definition retry_rounds (call : FetchCall) (n k : nat) : list Event :=
  flat_map (fun i => [EvFetch call; EvSleep (getRetryDelay i)]) (seq n k).

(** An exchange that succeeded: an ok status and a body that parsed. *)
Definition succeeded (outcome : FetchOutcome) : bool :=
  match outcome with
  | Responded status (Parsed _) => response_ok status
  | _ => false
  end.

(** The failures the retry policy is about: a response with status 429 or
    5xx, or a rejected or unreadable exchange that is not a timeout. *)
Definition retryable_status (status : Z) : bool :=
  (status >=? 500)%Z || (status =? 429)%Z.

Definition transport_failure (outcome : FetchOutcome) : bool :=
  match outcome with
  | Rejected reason => negb (is_AbortError reason)
  | Responded _ (Unreadable _ _) => true
  | Responded _ (Parsed _) => false
  end.

Definition retryable_failure (outcome : FetchOutcome) : bool :=
  match outcome with
  | Responded status _ => retryable_status status || transport_failure outcome
  | Rejected _ => transport_failure outcome
  end.

Definition timed_out (outcome : FetchOutcome) : bool :=
  match outcome with
  | Rejected reason => is_AbortError reason
  | Responded _ _ => false
  end.


(** ** The abort timer

    [setTimeout(() => controller.abort(), this.timeout)] is armed just
    before [fetch] and cleared as soon as [fetch] has resolved, before
    [response.json()] is awaited.  So the timer limits the time until the
    response arrives, not the time its body takes to read.  An exchange,
    in time: the response arrives after [after] milliseconds and its body
    takes [reading] more; or the exchange breaks after [after]
    milliseconds; or nothing ever comes back. *)
Inductive Exchange : Type :=
| Answers (after : Z) (status : Z) (reading : Z) (body : BodyRead)
| Breaks (after : Z) (reason : Thrown)
| Silent.

(** The rejection of a [fetch] whose signal is aborted. *)
Definition AbortError : Thrown :=
  ThrownError "AbortError" "This operation was aborted".

(** Whether [fetch] is still pending when a timer of [delay] milliseconds
    fires. *)
Definition pending_at (delay : Z) (e : Exchange) : bool :=
  match e with
  | Answers after _ _ _ => (delay <=? after)%Z
  | Breaks after _ => (delay <=? after)%Z
  | Silent => true
  end.

(** What [fetch] and [response.json()] make of an exchange when the abort
    timer is set to [delay] milliseconds. *)
Definition under_timer (delay : Z) (e : Exchange) : FetchOutcome :=
  if pending_at delay e then Rejected AbortError
  else
    match e with
    | Answers _ status _ body => Responded status body
    | Breaks _ reason => Rejected reason
    | Silent => Rejected AbortError
    end.

(** ** What a thrown error carries *)






(** ** A concrete host and concrete runs, for worked examples *)

Module Sample.

(** [String(value)]: integers print in decimal (as JavaScript prints them
    below 1e21), arrays join their items with commas. *)
Fixpoint to_string (v : Value) : string :=
  match v with
  | VUndefined => "undefined"
  | VNull => "null"
  | VBool true => "true"
  | VBool false => "false"
  | VNum (Fin z) => NilZero.string_of_int (Z.to_int z)
  | VNum NaN => "NaN"
  | VNum PosInf => "Infinity"
  | VNum NegInf => "-Infinity"
  | VStr s => s
  | VArr items =>
      String.concat ","
        (map (fun item => if nullish item then "" else to_string item) items)
  | VObj _ => "[object Object]"
  end.

(** A host on which a URL parses when its base is an http(s) URL. *)
Definition host : Host :=
  {| URL_valid := fun _ base =>
       startsWith base "https://" || startsWith base "http://";
     ToString := to_string |}.

Definition config (key : string) (retries : Optional Number)
    : Config.VaultixConfig :=
  {| Config.secretKey := key;
     Config.baseUrl := Undefined;
     Config.timeout := Undefined;
     Config.maxRetries := retries |}.

(** The client built from [{ secretKey: key, maxRetries: retries }]. *)
Definition client (key : string) (retries : Number) : VaultixClient :=
  {| secretKey := key;
     baseUrl := DEFAULT_BASE_URL;
     timeout := DEFAULT_TIMEOUT;
     maxRetries := retries |}.

Definition ok_body : Value :=
  VObj [("id", VStr "ch_abc123"); ("status", VStr "pending")].

Definition unavailable : FetchOutcome := Responded 503 (Parsed (VObj [])).
Definition rate_limited : FetchOutcome := Responded 429 (Parsed (VObj [])).
Definition connection_reset : FetchOutcome :=
  Rejected (ThrownError "TypeError" "fetch failed").
Definition aborted : FetchOutcome :=
  Rejected (ThrownError "AbortError" "This operation was aborted").
Definition success : FetchOutcome := Responded 200 (Parsed ok_body).

Definition list_params : Entries :=
  [("limit", VNum (Fin 20)); ("status", VStr "paid");
   ("starting_after", VUndefined); ("ending_before", VNull)].

End Sample.

(** * Properties *)

(** ** Comparisons against a retry count *)

Lemma lt_not_ge (a b : Number) : num_lt a b = true -> num_ge a b = false.
Proof.
  destruct a, b; unfold num_lt, num_ge; try congruence.
  rewrite Z.ltb_lt, Z.geb_leb, Z.leb_gt. trivial.
Qed.

Lemma ge_not_lt (a b : Number) : num_ge a b = true -> num_lt a b = false.
Proof.
  destruct (num_lt a b) eqn:E; trivial.
  rewrite (lt_not_ge _ _ E). discriminate.
Qed.

Lemma lt_count (n m : nat) :
  num_lt (Fin (Z.of_nat n)) (Fin (Z.of_nat m)) = true <-> n < m.
Proof. unfold num_lt. rewrite Z.ltb_lt. lia. Qed.

Lemma ge_count (n m : nat) :
  num_ge (Fin (Z.of_nat n)) (Fin (Z.of_nat m)) = true <-> m <= n.
Proof. unfold num_ge. rewrite Z.geb_leb, Z.leb_le. lia. Qed.

Lemma ge_count_false (n m : nat) :
  num_ge (Fin (Z.of_nat n)) (Fin (Z.of_nat m)) = false <-> n < m.
Proof. unfold num_ge. rewrite Z.geb_leb, Z.leb_gt. lia. Qed.

Lemma retryable_status_not_ok (status : Z) :
  retryable_status status = true -> response_ok status = false.
Proof.
  unfold retryable_status, response_ok.
  rewrite orb_true_iff, andb_false_iff, Z.geb_leb, Z.leb_le, Z.eqb_eq, !Z.leb_gt.
  lia.
Qed.

Lemma body_failure_is_not_abort (kind : BodyFailure) (msg : string) :
  is_AbortError (ThrownError (BodyFailure_name kind) msg) = false.
Proof. destruct kind; reflexivity. Qed.

(** ** One attempt *)

Section Attempt.

Variable host : Host.
Variable this : VaultixClient.

Lemma attempt_retries (n : nat) (outcome : FetchOutcome) :
  retryable_failure outcome = true ->
  num_lt (Fin (Z.of_nat n)) (maxRetries this) = true ->
  attempt host this n outcome = StepRetry.
Proof.
  intros Hfail Hlt.
  destruct outcome as [status [json | kind msg] | reason];
    unfold attempt, try_block, catch_block; simpl in Hfail.
  - rewrite orb_false_r in Hfail.
    rewrite (retryable_status_not_ok _ Hfail). simpl.
    unfold shouldRetry. rewrite (lt_not_ge _ _ Hlt).
    unfold retryable_status in Hfail. rewrite Hfail. reflexivity.
  - rewrite body_failure_is_not_abort, Hlt. reflexivity.
  - apply negb_true_iff in Hfail. rewrite Hfail, Hlt. reflexivity.
Qed.

Lemma attempt_throws_api (n : nat) (outcome : FetchOutcome) (e : Exn) :
  attempt host this n outcome = StepThrow e ->
  exists err, e = ExnAPI err /\ name err = "VaultixAPIError".
Proof.
  unfold attempt, try_block, catch_block.
  destruct outcome as [status [json | kind msg] | reason].
  - destruct (negb (response_ok status)); [ | discriminate ].
    destruct (shouldRetry this status n); [ discriminate | ].
    destruct (member json "error") as [err | ]; simpl.
    + intros [= <-]. eexists. split; reflexivity.
    + destruct (num_lt _ _); [ discriminate | ].
      intros [= <-]. eexists. split; reflexivity.
  - rewrite body_failure_is_not_abort.
    destruct (num_lt _ _); [ discriminate | ].
    intros [= <-]. eexists. split; reflexivity.
  - destruct (is_AbortError reason).
    + intros [= <-]. eexists. split; reflexivity.
    + destruct (num_lt _ _); [ discriminate | ].
      intros [= <-]. eexists. split; reflexivity.
Qed.

Lemma attempt_gives_up (n : nat) (outcome : FetchOutcome) :
  retryable_failure outcome = true ->
  num_ge (Fin (Z.of_nat n)) (maxRetries this) = true ->
  exists err, attempt host this n outcome = StepThrow (ExnAPI err).
Proof.
  intros Hfail Hge.
  assert (Hlt := ge_not_lt _ _ Hge).
  unfold attempt, try_block, catch_block.
  destruct outcome as [status [json | kind msg] | reason]; simpl in Hfail.
  - rewrite orb_false_r in Hfail.
    rewrite (retryable_status_not_ok _ Hfail). simpl negb. cbv iota.
    unfold shouldRetry. rewrite Hge.
    destruct (member json "error"); simpl; [ eauto | ].
    rewrite Hlt. eauto.
  - rewrite body_failure_is_not_abort, Hlt. eauto.
  - apply negb_true_iff in Hfail. rewrite Hfail, Hlt. eauto.
Qed.

Lemma attempt_timed_out (n : nat) (outcome : FetchOutcome) :
  timed_out outcome = true ->
  attempt host this n outcome = StepThrow (ExnAPI (timeout_error host this)).
Proof.
  destruct outcome as [status body | reason]; simpl; [ discriminate | ].
  intros Habort. unfold attempt, try_block, catch_block.
  rewrite Habort. reflexivity.
Qed.

Lemma attempt_returns (n : nat) (outcome : FetchOutcome) (json : Value) :
  attempt host this n outcome = StepReturn json ->
  exists status,
    outcome = Responded status (Parsed json) /\ response_ok status = true.
Proof.
  unfold attempt, try_block, catch_block.
  destruct outcome as [status [j | kind msg] | reason].
  - destruct (response_ok status) eqn:Hok; simpl.
    + intros [= <-]. exists status. auto.
    + destruct (shouldRetry this status n); [ discriminate | ].
      destruct (member j "error"); simpl; [ discriminate | ].
      destruct (num_lt _ _); discriminate.
  - rewrite body_failure_is_not_abort. destruct (num_lt _ _); discriminate.
  - destruct (is_AbortError reason); [ discriminate | ].
    destruct (num_lt _ _); discriminate.
Qed.

(** A retry is only ever granted while the retry count is below a finite
    maximum. *)
Lemma attempt_retry_within_budget (n m : nat) (outcome : FetchOutcome) :
  maxRetries this = Fin (Z.of_nat m) ->
  attempt host this n outcome = StepRetry ->
  n < m.
Proof.
  intros Hmax. unfold attempt, try_block, catch_block, shouldRetry.
  rewrite Hmax.
  destruct outcome as [status [j | kind msg] | reason].
  - destruct (negb (response_ok status)); [ | discriminate ].
    destruct (num_ge _ _) eqn:Hge.
    + destruct (member j "error"); simpl; [ discriminate | ].
      rewrite (ge_not_lt _ _ Hge). discriminate.
    + intros _. apply ge_count_false, Hge.
  - rewrite body_failure_is_not_abort.
    destruct (num_lt _ _) eqn:Hlt; [ | discriminate ].
    intros _. apply lt_count, Hlt.
  - destruct (is_AbortError reason); [ discriminate | ].
    destruct (num_lt _ _) eqn:Hlt; [ | discriminate ].
    intros _. apply lt_count, Hlt.
Qed.

End Attempt.

(** ** Reading traces *)

Lemma fetches_app (a b : list Event) : fetches (a ++ b) = fetches a ++ fetches b.
Proof.
  induction a as [ | [call | ms] a IH]; simpl; rewrite ?IH; reflexivity.
Qed.

Lemma sleeps_app (a b : list Event) : sleeps (a ++ b) = sleeps a ++ sleeps b.
Proof.
  induction a as [ | [call | ms] a IH]; simpl; rewrite ?IH; reflexivity.
Qed.

Lemma retry_rounds_S (call : FetchCall) (n k : nat) :
  retry_rounds call n (S k) =
  EvFetch call :: EvSleep (getRetryDelay n) :: retry_rounds call (S n) k.
Proof. reflexivity. Qed.

Lemma sleeps_retry_rounds (call : FetchCall) (n k : nat) :
  sleeps (retry_rounds call n k) = map getRetryDelay (seq n k).
Proof.
  revert n. induction k as [ | k IH]; intros n; [ reflexivity | ].
  rewrite retry_rounds_S. simpl. rewrite IH. reflexivity.
Qed.

Lemma fetches_retry_rounds (call : FetchCall) (n k : nat) :
  fetches (retry_rounds call n k) = repeat call k.
Proof.
  revert n. induction k as [ | k IH]; intros n; [ reflexivity | ].
  rewrite retry_rounds_S. simpl. rewrite IH. reflexivity.
Qed.

(** ** The executor *)

Section Executor.

Variable host : Host.
Variable this : VaultixClient.
Variable method : Method.
Variable path : string.
Variable data : option Entries.


Lemma request_invalid_url (net : list FetchOutcome) (n : nat) :
  URL_valid host path (baseUrl this) = false ->
  request host net this method path data n =
  settle (Throw (ExnOther (ThrownError "TypeError" "Invalid URL"))) this [] net.
Proof.
  intros Hurl. destruct net; simpl; unfold new_URL; rewrite Hurl; reflexivity.
Qed.

Lemma request_starved (n : nat) :
  URL_valid host path (baseUrl this) = true ->
  request host [] this method path data n =
  settle Starved this [EvFetch (request_call host this method path data)] [].
Proof.
  intros Hurl. simpl. unfold new_URL. rewrite Hurl. reflexivity.
Qed.

Lemma request_step (outcome : FetchOutcome) (rest : list FetchOutcome) (n : nat) :
  URL_valid host path (baseUrl this) = true ->
  request host (outcome :: rest) this method path data n =
  match attempt host this n outcome with
  | StepReturn json => settle (Return json) this [EvFetch (request_call host this method path data)] rest
  | StepThrow e => settle (Throw e) this [EvFetch (request_call host this method path data)] rest
  | StepRetry =>
      preceded_by [EvFetch (request_call host this method path data); EvSleep (getRetryDelay n)]
        (request host rest this method path data (S n))
  end.
Proof.
  intros Hurl. simpl. unfold new_URL. rewrite Hurl. reflexivity.
Qed.

(** Every run is a number of failed rounds followed by one last [fetch]. *)
Lemma request_trace (net : list FetchOutcome) (n : nat) :
  URL_valid host path (baseUrl this) = true ->
  exists k,
    trace (request host net this method path data n) =
    retry_rounds (request_call host this method path data) n k ++ [EvFetch (request_call host this method path data)].
Proof.
  intros Hurl. revert n.
  induction net as [ | outcome rest IH]; intros n.
  - exists 0. rewrite request_starved by assumption. reflexivity.
  - rewrite request_step by assumption.
    destruct (attempt host this n outcome).
    + exists 0. reflexivity.
    + destruct (IH (S n)) as [k Hk]. exists (S k).
      simpl. rewrite Hk. reflexivity.
    + exists 0. reflexivity.
Qed.

(** The client object is the same after the call. *)
Lemma request_self (net : list FetchOutcome) (n : nat) :
  self (request host net this method path data n) = this.
Proof.
  revert n. induction net as [ | outcome rest IH]; intros n; simpl.
  - destruct (new_URL host path (baseUrl this)); reflexivity.
  - destruct (new_URL host path (baseUrl this)); [ | reflexivity ].
    destruct (attempt host this n outcome); simpl; auto.
Qed.

(** With a finite maximum [m], a run that starts at retry count [n] sleeps
    at most [m - n] times. *)
Lemma request_sleeps_bounded (m : nat) (net : list FetchOutcome) (n : nat) :
  maxRetries this = Fin (Z.of_nat m) ->
  List.length (sleeps (trace (request host net this method path data n))) <= m - n.
Proof.
  intros Hmax. revert n.
  induction net as [ | outcome rest IH]; intros n; simpl.
  - destruct (new_URL host path (baseUrl this)); simpl; lia.
  - destruct (new_URL host path (baseUrl this)); simpl; [ | lia ].
    destruct (attempt host this n outcome) eqn:E; simpl; try lia.
    apply (attempt_retry_within_budget host this n m outcome Hmax) in E.
    specialize (IH (S n)). lia.
Qed.

(** A script of retryable failures is retried until the retry count
    reaches the maximum, and the failure is thrown there. *)
Lemma request_all_failures (m k : nat) :
  URL_valid host path (baseUrl this) = true ->
  maxRetries this = Fin (Z.of_nat m) ->
  forall (net : list FetchOutcome) (n : nat),
    n + k = m ->
    k < List.length net ->
    Forall (fun o => retryable_failure o = true) (firstn (S k) net) ->
    let r := request host net this method path data n in
    trace r = retry_rounds (request_call host this method path data) n k ++ [EvFetch (request_call host this method path data)] /\
    (exists err, completion r = Throw (ExnAPI err)) /\
    unread r = skipn (S k) net.
Proof.
  intros Hurl Hmax.
  induction k as [ | k IH]; intros net n Hn Hlen Hall;
    (destruct net as [ | outcome rest]; [ simpl in Hlen; lia | ]);
    rewrite firstn_cons in Hall; inversion Hall as [ | ? ? Hhead Htail]; subst;
    cbv zeta; rewrite request_step by assumption.
  - destruct (attempt_gives_up host this n outcome Hhead) as [err ->].
    + rewrite Hmax. apply ge_count. lia.
    + simpl. repeat split. exists err. reflexivity.
  - rewrite (attempt_retries host this n outcome Hhead).
    + destruct (IH rest (S n)) as (Htrace & Hthrow & Hunread);
        [ lia | simpl in Hlen; lia | assumption | ].
      simpl. rewrite Htrace. repeat split; assumption.
    + rewrite Hmax. apply lt_count. lia.
Qed.

(** How a run settles, against the script it read. *)
Lemma request_settles (net : list FetchOutcome) (n : nat) :
  URL_valid host path (baseUrl this) = true ->
  let r := request host net this method path data n in
  match completion r with
  | Return json =>
      exists before status,
        net = before ++ Responded status (Parsed json) :: unread r /\
        response_ok status = true
  | Throw e =>
      exists before outcome err,
        net = before ++ outcome :: unread r /\
        succeeded outcome = false /\
        e = ExnAPI err /\ name err = "VaultixAPIError"
  | Starved => unread r = []
  end.
Proof.
  intros Hurl. revert n.
  induction net as [ | outcome rest IH]; intros n; cbv zeta.
  - rewrite request_starved by assumption. reflexivity.
  - rewrite request_step by assumption.
    destruct (attempt host this n outcome) as [json | | e] eqn:E.
    + destruct (attempt_returns _ _ _ _ _ E) as (status & -> & Hok).
      exists [], status. simpl. auto.
    + specialize (IH (S n)). cbv zeta in IH. simpl.
      destruct (completion (request host rest this method path data (S n))).
      * destruct IH as (before & status & Hnet & Hok).
        exists (outcome :: before), status. simpl. rewrite <- Hnet. auto.
      * destruct IH as (before & o & err & Hnet & Hfail & He & Hname).
        exists (outcome :: before), o, err. simpl. rewrite <- Hnet. auto.
      * assumption.
    + destruct (attempt_throws_api _ _ _ _ _ E) as (err & -> & Hname).
      exists [], outcome, err. simpl. repeat split; trivial.
      destruct (succeeded outcome) eqn:Hs; trivial.
      destruct outcome as [status [j | ? ?] | ?]; simpl in Hs; try discriminate.
      unfold attempt, try_block in E. rewrite Hs in E. discriminate.
Qed.

End Executor.

(** ** The retry policy *)

(** C1.  A response with status 429 or 5xx, an unreadable response or a
    rejected [fetch] that is not a timeout is answered, while the retry
    count is below [maxRetries], by a back-off sleep and the next attempt,
    never by a throw; once the retry count has reached [maxRetries] the
    failure is thrown as a [VaultixAPIError].  With a maximum of [m] a call
    never retries more than [m] times, and against a network that only
    fails it makes exactly [m + 1] attempts before it throws. *)
Theorem retry_until_budget_exhausted
    (host : Host) (this : VaultixClient) (method : Method) (path : string)
    (data : option Entries) :
  URL_valid host path (baseUrl this) = true ->
  (forall outcome rest n,
      retryable_failure outcome = true ->
      num_lt (Fin (Z.of_nat n)) (maxRetries this) = true ->
      request host (outcome :: rest) this method path data n =
      preceded_by
        [EvFetch (request_call host this method path data);
         EvSleep (getRetryDelay n)]
        (request host rest this method path data (S n))) /\
  (forall outcome rest n,
      retryable_failure outcome = true ->
      num_ge (Fin (Z.of_nat n)) (maxRetries this) = true ->
      exists err,
        request host (outcome :: rest) this method path data n =
        settle (Throw (ExnAPI err)) this
          [EvFetch (request_call host this method path data)] rest) /\
  (forall m net,
      maxRetries this = Fin (Z.of_nat m) ->
      let r := request host net this method path data 0 in
      List.length (sleeps (trace r)) <= m /\
      (m < List.length net ->
       Forall (fun o => retryable_failure o = true) (firstn (S m) net) ->
       List.length (fetches (trace r)) = S m /\
       List.length (sleeps (trace r)) = m /\
       (exists err, completion r = Throw (ExnAPI err)) /\
       unread r = skipn (S m) net)).
Proof.
  intros Hurl. split; [ | split].
  - intros outcome rest n Hfail Hlt.
    rewrite request_step by assumption.
    rewrite (attempt_retries host this n outcome Hfail Hlt). reflexivity.
  - intros outcome rest n Hfail Hge.
    rewrite request_step by assumption.
    destruct (attempt_gives_up host this n outcome Hfail Hge) as [err ->].
    exists err. reflexivity.
  - intros m net Hmax. cbv zeta. split.
    + pose proof (request_sleeps_bounded host this method path data m net 0 Hmax).
      lia.
    + intros Hlen Hall.
      destruct (request_all_failures host this method path data m m Hurl Hmax
                  net 0 eq_refl Hlen Hall) as (Htrace & Hthrow & Hunread).
      rewrite Htrace, fetches_app, sleeps_app.
      rewrite fetches_retry_rounds, sleeps_retry_rounds.
      simpl. rewrite !length_app, repeat_length, length_map, length_seq.
      simpl. repeat split; try lia; assumption.
Qed.

Lemma retry_until_budget_exhausted_witness :
  let c := Sample.client "sk_test_abc" (Fin 3) in
  let net := [Sample.unavailable; Sample.rate_limited;
              Sample.connection_reset; Sample.unavailable; Sample.success] in
  let r := request Sample.host net c GET "/v1/charges" None 0 in
  URL_valid Sample.host "/v1/charges" (baseUrl c) = true /\
  List.length (fetches (trace r)) = 4 /\
  List.length (sleeps (trace r)) = 3 /\
  (exists err, completion r = Throw (ExnAPI err)) /\
  unread r = [Sample.success].
Proof.
  cbv zeta. split; [ reflexivity | ].
  destruct (retry_until_budget_exhausted Sample.host
              (Sample.client "sk_test_abc" (Fin 3)) GET "/v1/charges" None
              eq_refl) as (_ & _ & H).
  destruct (H 3 [Sample.unavailable; Sample.rate_limited;
                 Sample.connection_reset; Sample.unavailable; Sample.success]
              eq_refl) as [_ Hrun].
  apply Hrun; [ simpl; lia | repeat constructor ].
Defined.

(** ** The back-off delay *)

Lemma getRetryDelay_units (n : nat) :
  getRetryDelay n = (1000 * Z.min (2 ^ Z.of_nat n) 10)%Z.
Proof.
  unfold getRetryDelay. change 10000%Z with (1000 * 10)%Z.
  apply Z.mul_min_distr_nonneg_l. lia.
Qed.

Lemma getRetryDelay_doubles (n : nat) :
  getRetryDelay (S n) = Z.min (2 * getRetryDelay n) 10000.
Proof.
  unfold getRetryDelay. rewrite Nat2Z.inj_succ, Z.pow_succ_r by lia.
  set (p := (2 ^ Z.of_nat n)%Z). lia.
Qed.

Lemma getRetryDelay_capped (n : nat) : 4 <= n -> getRetryDelay n = 10000%Z.
Proof.
  intros Hn. unfold getRetryDelay.
  assert (2 ^ 4 <= 2 ^ Z.of_nat n)%Z by (apply Z.pow_le_mono_r; lia).
  change (2 ^ 4)%Z with 16%Z in *. lia.
Qed.

(** C2.  The delay after the attempt at retry count [n] is
    [min(1000 * 2^n, 10000)] milliseconds, that is [min(2^n, 10)] units of
    1000 ms: 1000 ms before the first retry, doubling with each retry, and
    10000 ms from the fifth on.  Every run of [request] is a sequence of
    attempts at successive retry counts, each failed attempt followed by
    exactly this sleep, and one last attempt (or nothing at all, when the
    URL does not parse). *)
Theorem backoff_delay_between_attempts
    (host : Host) (net : list FetchOutcome) (this : VaultixClient)
    (method : Method) (path : string) (data : option Entries) (n0 : nat) :
  (forall n, getRetryDelay n = (1000 * Z.min (2 ^ Z.of_nat n) 10)%Z) /\
  getRetryDelay 0 = 1000%Z /\
  (forall n, getRetryDelay (S n) = Z.min (2 * getRetryDelay n) 10000) /\
  (forall n, 4 <= n -> getRetryDelay n = 10000%Z) /\
  let r := request host net this method path data n0 in
  let call := request_call host this method path data in
  trace r = [] \/
  exists k,
    trace r =
    flat_map
      (fun n => [EvFetch call;
                 EvSleep (Z.min (1000 * 2 ^ Z.of_nat n) 10000)])
      (seq n0 k)
    ++ [EvFetch call].
Proof.
  split; [ exact getRetryDelay_units | ].
  split; [ reflexivity | ].
  split; [ exact getRetryDelay_doubles | ].
  split; [ exact getRetryDelay_capped | ].
  cbv zeta.
  destruct (URL_valid host path (baseUrl this)) eqn:Hurl.
  - right. exact (request_trace host this method path data net n0 Hurl).
  - left. rewrite request_invalid_url by assumption. reflexivity.
Qed.

Lemma backoff_delay_between_attempts_witness :
  map getRetryDelay (seq 0 6) =
  [1000; 2000; 4000; 8000; 10000; 10000]%Z /\
  getRetryDelay 7 = 10000%Z.
Proof.
  split; [ reflexivity | ].
  apply (backoff_delay_between_attempts Sample.host []
           (Sample.client "sk_test_abc" (Fin 3)) GET "/v1/charges" None 0).
  lia.
Defined.

(** ** Timeouts *)

(** C3, as the code has it.  Take a client whose timeout is a delay that
    [setTimeout] waits as given (1 to 2147483647 ms).  When [fetch] is
    still pending as the timer fires (no response within the timeout,
    whether one comes later or never), the call throws at once a
    [VaultixAPIError] of type [api_error] with the code [timeout] and the
    status 408, after that single [fetch]; the attempt is not retried,
    whatever the retry count and the maximum, and no further network
    outcome is read.  When the response arrives in time, the timer is
    cleared and the attempt is handled as that response however long its
    body takes to read: an attempt that exceeds the timeout only while
    the body is read is not failed, and returns the body of an ok
    response. *)
Theorem timeout_limits_the_pending_fetch_only
    (host : Host) (this : VaultixClient) (method : Method) (path : string)
    (data : option Entries) (ms : Z) (e : Exchange)
    (rest : list FetchOutcome) (n : nat) :
  URL_valid host path (baseUrl this) = true ->
  timeout this = Fin ms ->
  (1 <= ms <= 2147483647)%Z ->
  let call := request_call host this method path data in
  let r := request host (under_timer ms e :: rest) this method path data n in
  fc_abortAfter call = Fin ms /\
  (pending_at ms e = true ->
   r = settle (Throw (ExnAPI (timeout_error host this))) this
         [EvFetch call] rest /\
   type (timeout_error host this) = VStr "api_error" /\
   code (timeout_error host this) = VStr "timeout" /\
   statusCode (timeout_error host this) = 408%Z) /\
  (forall after status reading body,
      e = Answers after status reading body ->
      (after < ms)%Z ->
      r = request host (Responded status body :: rest)
            this method path data n) /\
  (forall after status reading json,
      e = Answers after status reading (Parsed json) ->
      (after < ms < after + reading)%Z ->
      response_ok status = true ->
      r = settle (Return json) this [EvFetch call] rest).
Proof.
  intros Hurl Htimeout Hrange. cbv zeta.
  split; [ | split; [ | split ] ].
  - unfold request_call, fetch_call. simpl. exact Htimeout.
  - intros Hpending. split; [ | repeat split ].
    unfold under_timer. rewrite Hpending.
    rewrite request_step by assumption.
    rewrite (attempt_timed_out host this n (Rejected AbortError) eq_refl).
    reflexivity.
  - intros after status reading body -> Hafter.
    unfold under_timer, pending_at.
    replace (ms <=? after)%Z with false
      by (symmetry; apply Z.leb_gt; lia).
    reflexivity.
  - intros after status reading json -> [Hafter Hlate] Hok.
    unfold under_timer, pending_at.
    replace (ms <=? after)%Z with false
      by (symmetry; apply Z.leb_gt; lia).
    rewrite request_step by assumption.
    unfold attempt, try_block. rewrite Hok. reflexivity.
Qed.

Lemma timeout_limits_the_pending_fetch_only_witness :
  let c := Sample.client "sk_test_abc" (Fin 3) in
  completion
    (request Sample.host
       [under_timer 30000 (Answers 45000 200 10 (Parsed Sample.ok_body));
        Sample.success]
       c POST "/v1/charges" None 0) =
  Throw (ExnAPI (timeout_error Sample.host c)) /\
  completion
    (request Sample.host
       [under_timer 30000 (Answers 100 200 60000 (Parsed Sample.ok_body))]
       c POST "/v1/charges" None 0) =
  Return Sample.ok_body.
Proof.
  cbv zeta. split.
  - destruct (timeout_limits_the_pending_fetch_only Sample.host
                (Sample.client "sk_test_abc" (Fin 3)) POST "/v1/charges" None
                30000 (Answers 45000 200 10 (Parsed Sample.ok_body))
                [Sample.success] 0 eq_refl eq_refl)
      as (_ & Hpending & _); [ lia | ].
    destruct (Hpending eq_refl) as [Hrun _].
    exact (f_equal completion Hrun).
  - destruct (timeout_limits_the_pending_fetch_only Sample.host
                (Sample.client "sk_test_abc" (Fin 3)) POST "/v1/charges" None
                30000 (Answers 100 200 60000 (Parsed Sample.ok_body))
                [] 0 eq_refl eq_refl)
      as (_ & _ & _ & Hlate); [ lia | ].
    refine (f_equal completion
              (Hlate 100%Z 200%Z 60000%Z Sample.ok_body eq_refl _ eq_refl)).
    lia.
Defined.

(** C3, as the specification has it, fails: with three retries allowed and
    none used, a timed-out first attempt is thrown straight away and the
    response waiting behind it is never fetched, whereas a connection
    failure in the same place is retried and the call returns. *)
Lemma timeout_is_not_retried :
  let c := Sample.client "sk_test_abc" (Fin 3) in
  let timed := request Sample.host [Sample.aborted; Sample.success] c
                 POST "/v1/charges" None 0 in
  let failed := request Sample.host [Sample.connection_reset; Sample.success] c
                  POST "/v1/charges" None 0 in
  num_lt (Fin 0) (maxRetries c) = true /\
  retryable_failure Sample.aborted = false /\
  completion timed = Throw (ExnAPI (timeout_error Sample.host c)) /\
  List.length (fetches (trace timed)) = 1 /\
  sleeps (trace timed) = [] /\
  unread timed = [Sample.success] /\
  timed <>
    preceded_by
      [EvFetch (request_call Sample.host c POST "/v1/charges" None);
       EvSleep (getRetryDelay 0)]
      (request Sample.host [Sample.success] c POST "/v1/charges" None 1) /\
  completion failed = Return Sample.ok_body /\
  List.length (fetches (trace failed)) = 2.
Proof.
  cbv zeta. repeat split; try reflexivity.
  intros H. apply (f_equal unread) in H. vm_compute in H. discriminate.
Qed.

(** ** Construction *)

Lemma prefix_trans (a b c : string) :
  String.prefix a b = true -> String.prefix b c = true ->
  String.prefix a c = true.
Proof.
  revert b c. induction a as [ | x a IH]; intros b c Hab Hbc;
    [ destruct c; reflexivity | ].
  destruct b as [ | y b]; [ discriminate | ].
  destruct c as [ | z c]; [ discriminate | ].
  simpl in *.
  destruct (ascii_dec x y) as [-> | ]; [ | discriminate ].
  destruct (ascii_dec y z) as [-> | ]; [ | discriminate ].
  eauto.
Qed.

(** The constructor throws exactly on the keys that do not start with
    [sk_] (the empty key among them). *)
Lemma new_VaultixClient_throws_iff (config : Config.VaultixConfig) :
  (exists e, new_VaultixClient config = inl e) <->
  startsWith (Config.secretKey config) "sk_" = false.
Proof.
  unfold new_VaultixClient.
  destruct (Config.secretKey config) as [ | ch key].
  - simpl. split; eauto.
  - change (string_truthy (String ch key)) with true. cbv [negb].
    destruct (startsWith (String ch key) "sk_"); split; eauto.
    + intros [e He]. discriminate.
    + discriminate.
Qed.

(** Keys with a mode prefix are accepted. *)
Lemma new_VaultixClient_accepts_mode_prefix (config : Config.VaultixConfig) :
  startsWith (Config.secretKey config) "sk_live_" = true \/
  startsWith (Config.secretKey config) "sk_test_" = true ->
  exists c, new_VaultixClient config = inr c /\
            secretKey c = Config.secretKey config.
Proof.
  intros Hmode.
  assert (Hsk : startsWith (Config.secretKey config) "sk_" = true).
  { unfold startsWith in *.
    destruct Hmode as [H | H];
      refine (prefix_trans _ _ _ _ H); reflexivity. }
  unfold new_VaultixClient. rewrite Hsk.
  destruct (Config.secretKey config); [ discriminate | ].
  simpl. eauto.
Qed.

(** C4, on the code.  The constructor only looks for [sk_]: the key
    [sk_prod_abc] carries neither [sk_live_] nor [sk_test_], and the client
    is built with it all the same, although the message of the error the
    constructor throws on other keys reads "Must start with sk_live_ or
    sk_test_". *)
Theorem constructor_accepts_key_without_mode_prefix :
  startsWith "sk_prod_abc" "sk_live_" = false /\
  startsWith "sk_prod_abc" "sk_test_" = false /\
  new_VaultixClient (Sample.config "sk_prod_abc" Undefined) =
  inr (Sample.client "sk_prod_abc" (Fin 3)) /\
  new_VaultixClient (Sample.config "pk_test_abc" Undefined) =
  inl (ThrownError "Error"
         "Invalid secret key format. Must start with sk_live_ or sk_test_").
Proof. repeat split. Qed.

(** C5.  On a client that was constructed, and on the facade around it,
    [isTestMode] is true exactly when the configured secret key starts
    with [sk_test_]. *)
Theorem isTestMode_iff_test_prefix
    (config : Config.VaultixConfig) (sdk : SDK.Vaultix) :
  SDK.new_Vaultix config = inr sdk ->
  new_VaultixClient config = inr (SDK.client sdk) /\
  (isTestMode (SDK.client sdk) = true <->
   String.prefix "sk_test_" (Config.secretKey config) = true) /\
  (SDK.isTestMode sdk = true <->
   String.prefix "sk_test_" (Config.secretKey config) = true).
Proof.
  unfold SDK.new_Vaultix.
  destruct (new_VaultixClient config) as [e | c] eqn:Hnew; [ discriminate | ].
  intros [= <-]. simpl SDK.client.
  assert (Hkey : secretKey c = Config.secretKey config).
  { unfold new_VaultixClient in Hnew.
    destruct (negb (string_truthy _)); [ discriminate | ].
    destruct (negb (startsWith _ _)); [ discriminate | ].
    injection Hnew as <-. reflexivity. }
  unfold SDK.isTestMode, isTestMode, startsWith. simpl SDK.client.
  rewrite Hkey. repeat split; trivial.
Qed.

Lemma isTestMode_iff_test_prefix_witness :
  SDK.isTestMode {| SDK.client := Sample.client "sk_test_abc" (Fin 3) |} = true /\
  SDK.isTestMode {| SDK.client := Sample.client "sk_live_abc" (Fin 3) |} = false.
Proof.
  split.
  - apply (isTestMode_iff_test_prefix (Sample.config "sk_test_abc" Undefined)
             {| SDK.client := Sample.client "sk_test_abc" (Fin 3) |} eq_refl).
    reflexivity.
  - apply not_true_is_false. intros H.
    apply (isTestMode_iff_test_prefix (Sample.config "sk_live_abc" Undefined)
             {| SDK.client := Sample.client "sk_live_abc" (Fin 3) |} eq_refl)
      in H.
    discriminate.
Defined.

(** ** Errors *)






(** ** State *)

(** C7.  [request], and with it [get], [post], [put] and [delete], leaves
    the client object as it found it: the secret key, base URL, timeout
    and maximum retry count after the call are those before it. *)
Theorem client_unchanged_by_requests
    (host : Host) (net : list FetchOutcome) (this : VaultixClient)
    (method : Method) (path : string) (data : option Entries) (n : nat) :
  self (request host net this method path data n) = this /\
  self (get host net this path data) = this /\
  self (post host net this path data) = this /\
  self (put host net this path data) = this /\
  self (delete host net this path) = this.
Proof.
  unfold get, post, put, delete. repeat split; apply request_self.
Qed.

(** ** Query string and body *)

Lemma append_params_spec (host : Host) (data : Entries)
    (params : list (string * string)) :
  append_params host data params =
  params ++
  map (fun kv => (fst kv, ToString host (snd kv)))
      (filter (fun kv => negb (nullish (snd kv))) data).
Proof.
  unfold append_params. revert params.
  induction data as [ | [k v] data IH]; intros params; simpl.
  - rewrite app_nil_r. reflexivity.
  - rewrite IH. destruct (nullish v); simpl; [ reflexivity | ].
    rewrite <- app_assoc. reflexivity.
Qed.

Lemma nullish_false_iff (v : Value) :
  negb (nullish v) = true <-> v <> VUndefined /\ v <> VNull.
Proof.
  destruct v; simpl; split; try (intros [? ?]); try split;
    congruence.
Qed.

(** C8.  Every [fetch] of a call carries the same URL and body.  For GET
    with a parameter record the query string holds, in the record's order,
    one pair (key, [String(value)]) for each entry whose value is neither
    [undefined] nor [null], and nothing for the others, and there is no
    body.  For POST, PUT and DELETE the query string gets nothing and the
    body is [JSON.stringify] of the record when one is given. *)
Theorem query_for_GET_body_otherwise
    (host : Host) (net : list FetchOutcome) (this : VaultixClient)
    (method : Method) (path : string) (data : option Entries) (n : nat) :
  let r := request host net this method path data n in
  let query :=
    match method, data with
    | GET, Some d =>
        map (fun kv => (fst kv, ToString host (snd kv)))
            (filter (fun kv => negb (nullish (snd kv))) d)
    | _, _ => []
    end in
  let body :=
    match method, data with
    | GET, _ => None
    | _, Some d => Some (JSON_stringify d)
    | _, None => None
    end in
  Forall (fun call =>
            fc_method call = method /\
            searchParams (fc_url call) = query /\
            fc_body call = body)
         (fetches (trace r)) /\
  (URL_valid host path (baseUrl this) = true -> fetches (trace r) <> []) /\
  (forall d, method = GET -> data = Some d ->
     forall key text,
       In (key, text) query <->
       exists value,
         In (key, value) d /\ value <> VUndefined /\ value <> VNull /\
         text = ToString host value).
Proof.
  cbv zeta. split; [ | split ].
  - destruct (URL_valid host path (baseUrl this)) eqn:Hurl.
    + destruct (request_trace host this method path data net n Hurl) as [k ->].
      rewrite fetches_app, fetches_retry_rounds. simpl.
      apply Forall_app. split; [ apply Forall_forall; intros call Hin;
        apply repeat_spec in Hin; subst call | constructor; [ | constructor ] ];
        (split; [ reflexivity | ]);
        unfold request_call, fetch_call, add_query;
        destruct method, data as [d | ]; simpl;
        rewrite ?append_params_spec; auto.
    + rewrite request_invalid_url by assumption. constructor.
  - intros Hurl.
    destruct (request_trace host this method path data net n Hurl) as [k ->].
    rewrite fetches_app. simpl. intros H.
    apply app_eq_nil in H. destruct H as [_ H]. discriminate.
  - intros d -> -> key text. rewrite in_map_iff. split.
    + intros ([k v] & [= <- <-] & Hin).
      apply filter_In in Hin. destruct Hin as [Hin Hkeep].
      apply nullish_false_iff in Hkeep. simpl in Hkeep.
      exists v. tauto.
    + intros (v & Hin & Hu & Hn & ->).
      exists (key, v). split; [ reflexivity | ].
      apply filter_In. split; [ assumption | ].
      apply nullish_false_iff. auto.
Qed.

Lemma query_for_GET_body_otherwise_witness :
  let c := Sample.client "sk_test_abc" (Fin 3) in
  fetches (trace (request Sample.host [Sample.success] c GET "/v1/charges"
                    (Some Sample.list_params) 0)) <> [] /\
  (In ("limit", "20")
      (map (fun kv => (fst kv, ToString Sample.host (snd kv)))
           (filter (fun kv => negb (nullish (snd kv))) Sample.list_params))).
Proof.
  cbv zeta.
  destruct (query_for_GET_body_otherwise Sample.host [Sample.success]
              (Sample.client "sk_test_abc" (Fin 3)) GET "/v1/charges"
              (Some Sample.list_params) 0) as (_ & Hsome & Hin).
  split.
  - apply Hsome. reflexivity.
  - apply (Hin Sample.list_params eq_refl eq_refl "limit" "20").
    exists (VNum (Fin 20)). simpl.
    repeat split; try discriminate. left. reflexivity.
Defined.

(** ** Errors made up by the client *)

(** Where the three client-side errors arise: a timed-out attempt gives
    code [timeout] and status 408; a transport failure at or past the
    maximum gives code [network_error] and status 0; a response that is
    not ok, is not retried, and whose body is not [null] and has no (or a
    falsy) [error] member gives type [api_error], code [unknown_error] and
    the status of the response. *)
Lemma client_side_errors
    (host : Host) (this : VaultixClient) (method : Method) (path : string)
    (data : option Entries) (rest : list FetchOutcome) (n : nat) :
  URL_valid host path (baseUrl this) = true ->
  (forall outcome,
      timed_out outcome = true ->
      exists err,
        completion (request host (outcome :: rest) this method path data n) =
        Throw (ExnAPI err) /\
        code err = VStr "timeout" /\ statusCode err = 408%Z) /\
  (forall outcome,
      transport_failure outcome = true ->
      num_lt (Fin (Z.of_nat n)) (maxRetries this) = false ->
      exists err,
        completion (request host (outcome :: rest) this method path data n) =
        Throw (ExnAPI err) /\
        code err = VStr "network_error" /\ statusCode err = 0%Z) /\
  (forall status json err_member,
      response_ok status = false ->
      shouldRetry this status n = false ->
      member json "error" = Some err_member ->
      truthy err_member = false ->
      exists err,
        completion (request host (Responded status (Parsed json) :: rest)
                      this method path data n) =
        Throw (ExnAPI err) /\
        type err = VStr "api_error" /\ code err = VStr "unknown_error" /\
        statusCode err = status).
Proof.
  intros Hurl. split; [ | split ].
  - intros outcome Htimed. rewrite request_step by assumption.
    rewrite (attempt_timed_out host this n outcome Htimed).
    eexists. repeat split.
  - intros outcome Hfail Hlt. rewrite request_step by assumption.
    unfold attempt, try_block, catch_block.
    destruct outcome as [status [json | kind msg] | reason]; simpl in Hfail;
      try discriminate.
    + rewrite body_failure_is_not_abort, Hlt. eexists. repeat split.
    + apply negb_true_iff in Hfail. rewrite Hfail, Hlt.
      eexists. repeat split.
  - intros status json err_member Hok Hretry Hmember Hfalsy.
    rewrite request_step by assumption.
    unfold attempt, try_block. rewrite Hok, Hretry, Hmember, Hfalsy.
    eexists. repeat split.
Qed.

(** C9, on the code.  A 404 whose JSON body is [null] has no [error]
    member, yet it does not come out as [unknown_error] with status 404:
    reading [json.error] throws, the [catch] block takes that for a
    network failure, retries it while retries are left (three times here,
    with the default maximum), and in the end throws code [network_error]
    with status 0.  The same response with the body [{}] is thrown at once
    as [unknown_error] with status 404. *)
Theorem null_body_surfaces_as_network_error :
  let c := Sample.client "sk_test_abc" (Fin 3) in
  let not_found body := Responded 404 (Parsed body) in
  let nulls := request Sample.host
                 [not_found VNull; not_found VNull; not_found VNull;
                  not_found VNull; Sample.success]
                 c GET "/v1/charges/ch_missing" None 0 in
  let empty := request Sample.host [not_found (VObj []); Sample.success]
                 c GET "/v1/charges/ch_missing" None 0 in
  member VNull "error" = None /\
  (exists err,
      completion nulls = Throw (ExnAPI err) /\
      type err = VStr "api_error" /\
      code err = VStr "network_error" /\
      statusCode err = 0%Z) /\
  List.length (fetches (trace nulls)) = 4 /\
  sleeps (trace nulls) = [1000; 2000; 4000]%Z /\
  (exists err,
      completion empty = Throw (ExnAPI err) /\
      type err = VStr "api_error" /\
      code err = VStr "unknown_error" /\
      statusCode err = 404%Z) /\
  List.length (fetches (trace empty)) = 1.
Proof.
  cbv zeta. repeat split; try reflexivity; eexists; repeat split.
Qed.

(** ** Defaults *)

Lemma new_VaultixClient_fields (config : Config.VaultixConfig)
    (c : VaultixClient) :
  new_VaultixClient config = inr c ->
  c = {| secretKey := Config.secretKey config;
         baseUrl := or_default string_truthy (Config.baseUrl config) DEFAULT_BASE_URL;
         timeout := or_default number_truthy (Config.timeout config) DEFAULT_TIMEOUT;
         maxRetries := coalesce (Config.maxRetries config) DEFAULT_MAX_RETRIES |}.
Proof.
  unfold new_VaultixClient.
  destruct (negb (string_truthy _)); [ discriminate | ].
  destruct (negb (startsWith _ _)); [ discriminate | ].
  intros [= <-]. reflexivity.
Qed.

Lemma no_retries_at_zero
    (host : Host) (net : list FetchOutcome) (this : VaultixClient)
    (method : Method) (path : string) (data : option Entries) :
  maxRetries this = Fin 0 ->
  sleeps (trace (request host net this method path data 0)) = [] /\
  List.length (fetches (trace (request host net this method path data 0))) <= 1.
Proof.
  intros Hmax.
  pose proof (request_sleeps_bounded host this method path data 0 net 0 Hmax)
    as Hbound.
  destruct (sleeps (trace (request host net this method path data 0)))
    as [ | ms more] eqn:Hsleeps; [ | simpl in Hbound; lia ].
  split; [ reflexivity | ].
  destruct (URL_valid host path (baseUrl this)) eqn:Hurl.
  - destruct (request_trace host this method path data net 0 Hurl) as [k Hk].
    rewrite Hk in Hsleeps |- *.
    rewrite sleeps_app, sleeps_retry_rounds in Hsleeps. simpl in Hsleeps.
    rewrite app_nil_r in Hsleeps.
    destruct k; [ simpl; lia | discriminate ].
  - rewrite request_invalid_url by assumption. simpl. lia.
Qed.

(** C10.  The constructor defaults [maxRetries] with [??] and [timeout]
    and [baseUrl] with [||].  So a configured [maxRetries] of 0 is kept,
    and such a client never sleeps and never fetches twice in a call;
    only an absent or [null] [maxRetries] becomes 3.  A configured
    [timeout] of 0, like any falsy timeout and any absent one, becomes
    30000, and an empty, absent or [null] [baseUrl] becomes the default
    base URL, while truthy values are kept. *)
Theorem asymmetric_defaults
    (config : Config.VaultixConfig) (c : VaultixClient) :
  new_VaultixClient config = inr c ->
  (Config.maxRetries config = Given (Fin 0) ->
   maxRetries c = Fin 0 /\
   forall host net method path data,
     sleeps (trace (request host net c method path data 0)) = [] /\
     List.length (fetches (trace (request host net c method path data 0))) <= 1) /\
  (forall m, Config.maxRetries config = Given m -> maxRetries c = m) /\
  (Config.maxRetries config = Undefined \/ Config.maxRetries config = Null ->
   maxRetries c = Fin 3) /\
  (Config.timeout config = Given (Fin 0) -> timeout c = Fin 30000) /\
  (forall t, Config.timeout config = Given t ->
     timeout c = if number_truthy t then t else Fin 30000) /\
  (Config.timeout config = Undefined \/ Config.timeout config = Null ->
   timeout c = Fin 30000) /\
  (forall u, Config.baseUrl config = Given u ->
     baseUrl c = if string_truthy u then u else "https://console.velon.app/api") /\
  (Config.baseUrl config = Undefined \/ Config.baseUrl config = Null ->
   baseUrl c = "https://console.velon.app/api").
Proof.
  intros Hnew. apply new_VaultixClient_fields in Hnew. subst c. simpl.
  split; [ | repeat split ].
  - intros Hzero. rewrite Hzero. split; [ reflexivity | ].
    intros host net method path data.
    apply no_retries_at_zero. reflexivity.
  - intros m ->. reflexivity.
  - intros [-> | ->]; reflexivity.
  - intros ->. reflexivity.
  - intros t ->. reflexivity.
  - intros [-> | ->]; reflexivity.
  - intros u ->. reflexivity.
  - intros [-> | ->]; reflexivity.
Qed.

Lemma asymmetric_defaults_witness :
  let config :=
    {| Config.secretKey := "sk_live_abc";
       Config.baseUrl := Given "";
       Config.timeout := Given (Fin 0);
       Config.maxRetries := Given (Fin 0) |} in
  let c := Sample.client "sk_live_abc" (Fin 0) in
  new_VaultixClient config = inr c /\
  maxRetries c = Fin 0 /\
  timeout c = Fin 30000 /\
  sleeps (trace (request Sample.host [Sample.unavailable; Sample.success] c
                   GET "/v1/balance" None 0)) = [].
Proof.
  cbv zeta. split; [ reflexivity | ].
  pose proof (asymmetric_defaults
    {| Config.secretKey := "sk_live_abc";
       Config.baseUrl := Given "";
       Config.timeout := Given (Fin 0);
       Config.maxRetries := Given (Fin 0) |}
    (Sample.client "sk_live_abc" (Fin 0)) eq_refl) as (Hzero & _ & _ & Htimeout & _).
  destruct (Hzero eq_refl) as [Hmax Hnone].
  split; [ exact Hmax | ].
  split; [ exact (Htimeout eq_refl) | ].
  apply Hnone.
Defined.

(** * Further properties *)

(** ** Runs as a whole *)

Lemma attempt_succeeds (host : Host) (this : VaultixClient) (n : nat)
    (status : Z) (json : Value) :
  response_ok status = true ->
  attempt host this n (Responded status (Parsed json)) = StepReturn json.
Proof. intros Hok. unfold attempt, try_block. rewrite Hok. reflexivity. Qed.

Lemma attempt_retry_needs_budget (host : Host) (this : VaultixClient)
    (n : nat) (outcome : FetchOutcome) :
  attempt host this n outcome = StepRetry ->
  num_ge (Fin (Z.of_nat n)) (maxRetries this) = false.
Proof.
  unfold attempt, try_block, catch_block, shouldRetry.
  destruct outcome as [status [json | kind msg] | reason].
  - destruct (negb (response_ok status)); [ | discriminate ].
    destruct (num_ge _ _) eqn:Hge; [ | reflexivity ].
    destruct (member json "error"); simpl; [ discriminate | ].
    rewrite (ge_not_lt _ _ Hge). discriminate.
  - rewrite body_failure_is_not_abort.
    destruct (num_lt _ _) eqn:Hlt; [ | discriminate ].
    intros _. apply lt_not_ge, Hlt.
  - destruct (is_AbortError reason); [ discriminate | ].
    destruct (num_lt _ _) eqn:Hlt; [ | discriminate ].
    intros _. apply lt_not_ge, Hlt.
Qed.

(** The fetches of a run are copies of one call, its sleeps the delays of
    successive retry counts. *)
Lemma request_fetches_and_sleeps (host : Host) (net : list FetchOutcome)
    (this : VaultixClient) (method : Method) (path : string)
    (data : option Entries) (n : nat) :
  exists j k,
    fetches (trace (request host net this method path data n)) =
    repeat (request_call host this method path data) j /\
    sleeps (trace (request host net this method path data n)) =
    map getRetryDelay (seq n k).
Proof.
  destruct (URL_valid host path (baseUrl this)) eqn:Hurl.
  - destruct (request_trace host this method path data net n Hurl) as [k ->].
    exists (k + 1), k.
    rewrite fetches_app, sleeps_app, fetches_retry_rounds, sleeps_retry_rounds.
    simpl. rewrite app_nil_r, repeat_app. split; reflexivity.
  - rewrite request_invalid_url by assumption. exists 0, 0. split; reflexivity.
Qed.

(** While every outcome is one that [attempt] answers with a retry, the
    run goes on to the end of the script and is left waiting. *)
Lemma request_keeps_retrying (host : Host) (this : VaultixClient)
    (method : Method) (path : string) (data : option Entries)
    (again : FetchOutcome -> bool) :
  URL_valid host path (baseUrl this) = true ->
  (forall n outcome,
      again outcome = true -> attempt host this n outcome = StepRetry) ->
  forall net n,
    Forall (fun o => again o = true) net ->
    request host net this method path data n =
    {| completion := Starved;
       self := this;
       trace := retry_rounds (request_call host this method path data) n
                  (List.length net)
                ++ [EvFetch (request_call host this method path data)];
       unread := [] |}.
Proof.
  intros Hurl Hagain.
  induction net as [ | outcome rest IH]; intros n Hall.
  - rewrite request_starved by assumption. reflexivity.
  - inversion Hall as [ | ? ? Hhead Htail]; subst.
    rewrite request_step by assumption.
    rewrite (Hagain n outcome Hhead), (IH (S n) Htail). reflexivity.
Qed.

(** X1.  Recovery: when the first outcomes are retryable failures, no more
    of them than the maximum leaves room for, and the next one is an ok
    response, the call returns the body of that response, untouched, after
    one fetch and one back-off sleep per failure and the last fetch; what
    follows in the network is not read. *)
Theorem request_recovers_after_failures
    (host : Host) (this : VaultixClient) (method : Method) (path : string)
    (data : option Entries) (m : nat) (failures : list FetchOutcome)
    (n : nat) (status : Z) (json : Value) (rest : list FetchOutcome) :
  URL_valid host path (baseUrl this) = true ->
  maxRetries this = Fin (Z.of_nat m) ->
  Forall (fun o => retryable_failure o = true) failures ->
  n + List.length failures <= m ->
  response_ok status = true ->
  request host (failures ++ Responded status (Parsed json) :: rest)
    this method path data n =
  {| completion := Return json;
     self := this;
     trace := retry_rounds (request_call host this method path data) n
                (List.length failures)
              ++ [EvFetch (request_call host this method path data)];
     unread := rest |}.
Proof.
  intros Hurl Hmax Hall Hroom Hok. revert n Hroom.
  induction Hall as [ | outcome failures Hhead Htail IH]; intros n Hroom.
  - simpl. unfold new_URL. rewrite Hurl.
    rewrite (attempt_succeeds host this n status json Hok). reflexivity.
  - simpl List.length in *. rewrite <- app_comm_cons.
    rewrite request_step by assumption.
    rewrite (attempt_retries host this n outcome Hhead).
    + rewrite (IH (S n)) by lia. reflexivity.
    + rewrite Hmax. apply lt_count. lia.
Qed.

Lemma request_recovers_after_failures_witness :
  let c := Sample.client "sk_test_abc" (Fin 3) in
  completion
    (request Sample.host
       ([Sample.unavailable; Sample.connection_reset]
        ++ Sample.success :: [Sample.rate_limited])
       c GET "/v1/balance" None 0) = Return Sample.ok_body.
Proof.
  cbv zeta.
  refine (f_equal completion
            (request_recovers_after_failures Sample.host
               (Sample.client "sk_test_abc" (Fin 3)) GET "/v1/balance" None 3
               [Sample.unavailable; Sample.connection_reset] 0 200
               Sample.ok_body [Sample.rate_limited]
               eq_refl eq_refl _ _ eq_refl));
    [ repeat constructor | simpl; lia ].
Defined.

(** ** Errors answered by the server *)

Lemma retryable_status_false_no_retry (this : VaultixClient) (status : Z)
    (n : nat) :
  retryable_status status = false -> shouldRetry this status n = false.
Proof.
  unfold shouldRetry, retryable_status. intros ->.
  destruct (num_ge _ _); reflexivity.
Qed.

(** X2.  A response that is not ok, whose status is neither 429 nor 5xx
    and whose body is an object with an object for [error] member is
    thrown at once, without a retry, whatever is left of the retry budget:
    the [VaultixAPIError] has the status of the response and the [type],
    [code], [param] and [doc_url] of that object, and its [message]
    converted to a string (the empty string when it has none). *)
Theorem server_error_passed_through
    (host : Host) (this : VaultixClient) (method : Method) (path : string)
    (data : option Entries) (status : Z) (props eprops : Entries)
    (rest : list FetchOutcome) (n : nat) :
  URL_valid host path (baseUrl this) = true ->
  response_ok status = false ->
  retryable_status status = false ->
  lookup "error" props = VObj eprops ->
  exists err,
    request host (Responded status (Parsed (VObj props)) :: rest)
      this method path data n =
    settle (Throw (ExnAPI err)) this
      [EvFetch (request_call host this method path data)] rest /\
    statusCode err = status /\
    type err = lookup "type" eprops /\
    code err = lookup "code" eprops /\
    param err = lookup "param" eprops /\
    docUrl err = lookup "doc_url" eprops /\
    message err = match lookup "message" eprops with
                  | VUndefined => ""
                  | m => ToString host m
                  end.
Proof.
  intros Hurl Hok Hstatus Herror.
  exists (new_VaultixAPIError host (VObj eprops) status).
  split; [ | repeat split ].
  rewrite request_step by assumption.
  unfold attempt, try_block.
  rewrite Hok, (retryable_status_false_no_retry this status n Hstatus).
  simpl. rewrite Herror. reflexivity.
Qed.

Lemma server_error_passed_through_witness :
  let c := Sample.client "sk_test_abc" (Fin 3) in
  let body :=
    VObj [("error",
           VObj [("type", VStr "invalid_request_error");
                 ("code", VStr "parameter_invalid");
                 ("message", VStr "amount deve ser pelo menos 100");
                 ("param", VStr "amount")])] in
  exists err,
    completion (request Sample.host [Responded 400 (Parsed body)] c POST
                  "/v1/charges" (Some [("amount", VNum (Fin 50))]) 0) =
    Throw (ExnAPI err) /\
    statusCode err = 400%Z /\
    code err = VStr "parameter_invalid" /\
    param err = VStr "amount" /\
    message err = "amount deve ser pelo menos 100".
Proof.
  cbv zeta.
  destruct (server_error_passed_through Sample.host
              (Sample.client "sk_test_abc" (Fin 3)) POST "/v1/charges"
              (Some [("amount", VNum (Fin 50))]) 400
              [("error",
                VObj [("type", VStr "invalid_request_error");
                      ("code", VStr "parameter_invalid");
                      ("message", VStr "amount deve ser pelo menos 100");
                      ("param", VStr "amount")])]
              [("type", VStr "invalid_request_error");
               ("code", VStr "parameter_invalid");
               ("message", VStr "amount deve ser pelo menos 100");
               ("param", VStr "amount")]
              [] 0 eq_refl eq_refl eq_refl eq_refl)
    as (err & Hrun & Hstatus & _ & Hcode & Hparam & _ & Hmessage).
  exists err. rewrite Hrun. repeat split; assumption.
Defined.

(** X3.  When a response is not ok, its status is neither 429 nor 5xx,
    and the [error] member of its body is truthy but not an object (a
    string, say), nothing of it reaches the caller: the error thrown has
    the status of the response, but its [type], [code], [param] and
    [docUrl] are [undefined] and its message is empty. *)
Theorem error_member_not_an_object_is_lost
    (host : Host) (this : VaultixClient) (method : Method) (path : string)
    (data : option Entries) (status : Z) (json err_member : Value)
    (rest : list FetchOutcome) (n : nat) :
  URL_valid host path (baseUrl this) = true ->
  response_ok status = false ->
  retryable_status status = false ->
  member json "error" = Some err_member ->
  truthy err_member = true ->
  (forall props, err_member <> VObj props) ->
  exists err,
    request host (Responded status (Parsed json) :: rest)
      this method path data n =
    settle (Throw (ExnAPI err)) this
      [EvFetch (request_call host this method path data)] rest /\
    statusCode err = status /\
    type err = VUndefined /\ code err = VUndefined /\
    param err = VUndefined /\ docUrl err = VUndefined /\
    message err = "".
Proof.
  intros Hurl Hok Hstatus Hmember Htruthy Hshape.
  exists (new_VaultixAPIError host err_member status).
  split.
  - rewrite request_step by assumption.
    unfold attempt, try_block.
    rewrite Hok, (retryable_status_false_no_retry this status n Hstatus).
    simpl. rewrite Hmember, Htruthy. reflexivity.
  - destruct err_member; try discriminate; try (repeat split; reflexivity).
    exfalso. eapply Hshape. reflexivity.
Qed.

Lemma error_member_not_an_object_is_lost_witness :
  let c := Sample.client "sk_test_abc" (Fin 3) in
  exists err,
    completion (request Sample.host
                  [Responded 404 (Parsed (VObj [("error", VStr "Not found")]))]
                  c GET "/v1/charges/ch_missing" None 0) =
    Throw (ExnAPI err) /\
    statusCode err = 404%Z /\ code err = VUndefined /\ message err = "".
Proof.
  cbv zeta.
  destruct (error_member_not_an_object_is_lost Sample.host
              (Sample.client "sk_test_abc" (Fin 3)) GET
              "/v1/charges/ch_missing" None 404
              (VObj [("error", VStr "Not found")]) (VStr "Not found") [] 0
              eq_refl eq_refl eq_refl eq_refl eq_refl)
    as (err & Hrun & Hstatus & _ & Hcode & _ & _ & Hmessage).
  - intros props. discriminate.
  - exists err. rewrite Hrun. repeat split; assumption.
Defined.

(** ** The base URL and the request sent *)

(** X4.  The constructor takes any non-empty [baseUrl] as it is.  If it
    does not parse, every call on the client throws the TypeError of
    [new URL], not a [VaultixAPIError], before any [fetch]: nothing is
    sent, nothing is read from the network, and no retry is made. *)
Theorem unparsable_base_url_fails_at_request_time
    (config : Config.VaultixConfig) (c : VaultixClient) (u : string)
    (host : Host) (net : list FetchOutcome) (method : Method) (path : string)
    (data : option Entries) (n : nat) :
  new_VaultixClient config = inr c ->
  Config.baseUrl config = Given u ->
  string_truthy u = true ->
  URL_valid host path u = false ->
  baseUrl c = u /\
  request host net c method path data n =
  settle (Throw (ExnOther (ThrownError "TypeError" "Invalid URL"))) c [] net.
Proof.
  intros Hnew Hbase Htruthy Hurl.
  apply new_VaultixClient_fields in Hnew.
  assert (Hu : baseUrl c = u).
  { subst c. simpl. rewrite Hbase. simpl. rewrite Htruthy. reflexivity. }
  split; [ exact Hu | ].
  apply request_invalid_url. rewrite Hu. exact Hurl.
Qed.

Lemma unparsable_base_url_fails_at_request_time_witness :
  let config :=
    {| Config.secretKey := "sk_test_abc";
       Config.baseUrl := Given "console.velon.app/api";
       Config.timeout := Undefined;
       Config.maxRetries := Undefined |} in
  let c :=
    {| secretKey := "sk_test_abc";
       baseUrl := "console.velon.app/api";
       timeout := Fin 30000;
       maxRetries := Fin 3 |} in
  new_VaultixClient config = inr c /\
  trace (request Sample.host [Sample.success] c GET "/v1/balance" None 0) = [].
Proof.
  cbv zeta. split; [ reflexivity | ].
  refine (f_equal trace
            (proj2 (unparsable_base_url_fails_at_request_time
                      {| Config.secretKey := "sk_test_abc";
                         Config.baseUrl := Given "console.velon.app/api";
                         Config.timeout := Undefined;
                         Config.maxRetries := Undefined |}
                      _ "console.velon.app/api" Sample.host [Sample.success]
                      GET "/v1/balance" None 0
                      eq_refl eq_refl eq_refl eq_refl))).
Defined.

(** X5.  All the fetches of one call are the same request: the URL built
    from the same path and the client's base URL, the same method and
    body, the abort timer set to the client's timeout, and exactly three
    headers, [Authorization: Bearer] followed by the configured secret
    key, [Content-Type: application/json] and the SDK's [User-Agent]. *)
Theorem every_attempt_sends_the_same_request
    (config : Config.VaultixConfig) (c : VaultixClient) (host : Host)
    (net : list FetchOutcome) (method : Method) (path : string)
    (data : option Entries) (n : nat) :
  new_VaultixClient config = inr c ->
  Forall (fun call =>
            call = request_call host c method path data /\
            fc_headers call = request_headers (Config.secretKey config) /\
            fc_abortAfter call = timeout c /\
            url_input (fc_url call) = path /\
            url_base (fc_url call) = baseUrl c)
         (fetches (trace (request host net c method path data n))).
Proof.
  intros Hnew. apply new_VaultixClient_fields in Hnew.
  destruct (request_fetches_and_sleeps host net c method path data n)
    as (j & _ & -> & _).
  apply Forall_forall. intros call Hin. apply repeat_spec in Hin. subst call.
  split; [ reflexivity | ].
  split; [ rewrite Hnew at 1; reflexivity | ].
  unfold request_call, fetch_call, add_query.
  destruct method, data; repeat split.
Qed.

Lemma every_attempt_sends_the_same_request_witness :
  Forall (fun call =>
            fc_headers call =
            [("Authorization", "Bearer sk_test_abc");
             ("Content-Type", "application/json");
             ("User-Agent", "@vaultix/sdk/1.0.0")])
         (fetches (trace (request Sample.host
                            [Sample.unavailable; Sample.success]
                            (Sample.client "sk_test_abc" (Fin 3))
                            POST "/v1/charges" None 0))).
Proof.
  refine (Forall_impl _ _
            (every_attempt_sends_the_same_request
               (Sample.config "sk_test_abc" Undefined)
               (Sample.client "sk_test_abc" (Fin 3)) Sample.host
               [Sample.unavailable; Sample.success] POST "/v1/charges" None 0
               eq_refl)).
  intros call (_ & Hheaders & _). exact Hheaders.
Defined.

(** ** Time spent backing off *)

Lemma total_app (a b : list Z) : total (a ++ b) = (total a + total b)%Z.
Proof. induction a as [ | x a IH]; simpl; [ reflexivity | rewrite IH; lia ]. Qed.

Lemma getRetryDelay_bounds (n : nat) :
  (0 < getRetryDelay n <= 10000)%Z /\
  (getRetryDelay n <= 1000 * 2 ^ Z.of_nat n)%Z.
Proof.
  unfold getRetryDelay.
  assert (0 < 2 ^ Z.of_nat n)%Z by (apply Z.pow_pos_nonneg; lia).
  lia.
Qed.

Lemma total_delays_bounds (n k : nat) :
  (0 <= total (map getRetryDelay (seq n k)) <= 10000 * Z.of_nat k)%Z /\
  (total (map getRetryDelay (seq n k))
   <= 1000 * (2 ^ Z.of_nat (n + k) - 2 ^ Z.of_nat n))%Z.
Proof.
  revert n. induction k as [ | k IH]; intros n.
  - change (total (map getRetryDelay (seq n 0))) with 0%Z.
    rewrite Nat.add_0_r. lia.
  - destruct (IH (S n)) as [Hcap Hgeo].
    destruct (getRetryDelay_bounds n) as [Hd Hpow].
    change (total (map getRetryDelay (seq n (S k))))
      with (getRetryDelay n + total (map getRetryDelay (seq (S n) k)))%Z.
    replace (n + S k) with (S n + k) by lia.
    assert (Hs : (2 ^ Z.of_nat (S n) = 2 * 2 ^ Z.of_nat n)%Z)
      by (rewrite Nat2Z.inj_succ, Z.pow_succ_r; lia).
    lia.
Qed.

(** X6.  With a maximum of [m] retries, the back-off sleeps of one call
    add up to at most [10000 * m] milliseconds and to at most
    [1000 * (2^m - 1)]: at most 7 seconds with the default of three
    retries, whatever the network does. *)
Theorem total_backoff_bounded
    (host : Host) (net : list FetchOutcome) (this : VaultixClient)
    (method : Method) (path : string) (data : option Entries) (m : nat) :
  maxRetries this = Fin (Z.of_nat m) ->
  let waited :=
    total (sleeps (trace (request host net this method path data 0))) in
  (0 <= waited)%Z /\
  (waited <= 10000 * Z.of_nat m)%Z /\
  (waited <= 1000 * (2 ^ Z.of_nat m - 1))%Z /\
  (m = 3 -> (waited <= 7000)%Z).
Proof.
  intros Hmax. cbv zeta.
  pose proof (request_sleeps_bounded host this method path data m net 0 Hmax)
    as Hcount.
  destruct (request_fetches_and_sleeps host net this method path data 0)
    as (j & k & _ & Hsleeps).
  rewrite Hsleeps in Hcount |- *.
  rewrite length_map, length_seq in Hcount.
  destruct (total_delays_bounds 0 k) as [Hcap Hgeo]. simpl Nat.add in Hgeo.
  assert (Hpow : (2 ^ Z.of_nat k <= 2 ^ Z.of_nat m)%Z)
    by (apply Z.pow_le_mono_r; lia).
  change (2 ^ Z.of_nat 0)%Z with 1%Z in Hgeo.
  repeat split; try lia.
  intros ->. change (2 ^ Z.of_nat 3)%Z with 8%Z in Hpow. lia.
Qed.

Lemma total_backoff_bounded_witness :
  (total (sleeps (trace (request Sample.host
                           [Sample.unavailable; Sample.unavailable;
                            Sample.unavailable; Sample.unavailable]
                           (Sample.client "sk_test_abc" (Fin 3))
                           GET "/v1/balance" None 0))) <= 7000)%Z.
Proof.
  apply (total_backoff_bounded Sample.host
           [Sample.unavailable; Sample.unavailable;
            Sample.unavailable; Sample.unavailable]
           (Sample.client "sk_test_abc" (Fin 3)) GET "/v1/balance" None 3
           eq_refl).
  reflexivity.
Defined.

(** ** Maxima that are not counts *)

(** X7.  A maximum of zero or below (a negative number, or [-Infinity])
    switches retrying off: from any retry count, a call makes at most one
    fetch and never sleeps, whatever the network answers. *)
Theorem non_positive_maximum_never_retries
    (host : Host) (net : list FetchOutcome) (this : VaultixClient)
    (method : Method) (path : string) (data : option Entries) (n : nat) :
  maxRetries this = NegInf \/
  (exists z, maxRetries this = Fin z /\ (z <= 0)%Z) ->
  sleeps (trace (request host net this method path data n)) = [] /\
  List.length (fetches (trace (request host net this method path data n))) <= 1 /\
  (forall outcome rest, net = outcome :: rest ->
     URL_valid host path (baseUrl this) = true ->
     unread (request host net this method path data n) = rest /\
     completion (request host net this method path data n) <> Starved).
Proof.
  intros Hmax.
  assert (Hge : forall k, num_ge (Fin (Z.of_nat k)) (maxRetries this) = true).
  { intros k. destruct Hmax as [-> | (z & -> & Hz)]; [ reflexivity | ].
    unfold num_ge. rewrite Z.geb_leb. apply Z.leb_le. lia. }
  assert (Hno : forall outcome, attempt host this n outcome <> StepRetry).
  { intros outcome Hretry. apply attempt_retry_needs_budget in Hretry.
    rewrite Hge in Hretry. discriminate. }
  destruct (URL_valid host path (baseUrl this)) eqn:Hurl.
  - destruct net as [ | outcome rest].
    + rewrite request_starved by assumption. simpl.
      split; [ reflexivity | split; [ lia | ] ].
      intros o r Hnet. discriminate Hnet.
    + rewrite request_step by assumption.
      specialize (Hno outcome).
      destruct (attempt host this n outcome); try contradiction; simpl;
        (split; [ reflexivity | split; [ lia | ] ]);
        intros o r [= <- <-] _; split; try reflexivity; discriminate.
  - rewrite request_invalid_url by assumption. simpl.
    split; [ reflexivity | split; [ lia | ] ].
    intros o r _ Hvalid. discriminate Hvalid.
Qed.

Lemma non_positive_maximum_never_retries_witness :
  List.length
    (fetches (trace (request Sample.host [Sample.unavailable; Sample.success]
                       (Sample.client "sk_test_abc" (Fin (-1)))
                       GET "/v1/balance" None 0))) <= 1.
Proof.
  apply (non_positive_maximum_never_retries Sample.host
           [Sample.unavailable; Sample.success]
           (Sample.client "sk_test_abc" (Fin (-1))) GET "/v1/balance" None 0).
  right. exists (-1)%Z. split; [ reflexivity | lia ].
Defined.

(** X8.  With [maxRetries] set to [Infinity] the call never gives up:
    against any network that answers with retryable failures only, it
    fetches once per answer and once more, sleeps after every answer, and
    is still waiting when the answers end; it never throws. *)
Theorem infinite_maximum_never_gives_up
    (host : Host) (net : list FetchOutcome) (this : VaultixClient)
    (method : Method) (path : string) (data : option Entries) (n : nat) :
  URL_valid host path (baseUrl this) = true ->
  maxRetries this = PosInf ->
  Forall (fun o => retryable_failure o = true) net ->
  let r := request host net this method path data n in
  completion r = Starved /\
  unread r = [] /\
  List.length (fetches (trace r)) = S (List.length net) /\
  sleeps (trace r) = map getRetryDelay (seq n (List.length net)).
Proof.
  intros Hurl Hmax Hall. cbv zeta.
  rewrite (request_keeps_retrying host this method path data
             retryable_failure Hurl); [ | | exact Hall ].
  - simpl. rewrite fetches_app, sleeps_app.
    rewrite fetches_retry_rounds, sleeps_retry_rounds. simpl.
    rewrite length_app, repeat_length, app_nil_r. simpl.
    repeat split. lia.
  - intros k outcome Hfail. apply attempt_retries; [ exact Hfail | ].
    rewrite Hmax. reflexivity.
Qed.

Lemma infinite_maximum_never_gives_up_witness :
  completion
    (request Sample.host
       [Sample.unavailable; Sample.connection_reset; Sample.rate_limited;
        Sample.unavailable; Sample.unavailable; Sample.unavailable]
       (Sample.client "sk_test_abc" PosInf) GET "/v1/balance" None 0)
  = Starved.
Proof.
  apply (infinite_maximum_never_gives_up Sample.host
           [Sample.unavailable; Sample.connection_reset; Sample.rate_limited;
            Sample.unavailable; Sample.unavailable; Sample.unavailable]
           (Sample.client "sk_test_abc" PosInf) GET "/v1/balance" None 0
           eq_refl eq_refl).
  repeat constructor.
Defined.



(** ** The constructor's errors *)

(** X10.  The constructor throws "Secret key is required" on the empty
    key and "Invalid secret key format..." on a non-empty key that does
    not start with [sk_]; on every other key it builds a client that
    holds the key unchanged.  The facade's constructor throws the same
    error or wraps that client. *)
Theorem constructor_errors (config : Config.VaultixConfig) :
  (Config.secretKey config = "" ->
   new_VaultixClient config =
   inl (ThrownError "Error" "Secret key is required")) /\
  (Config.secretKey config <> "" ->
   startsWith (Config.secretKey config) "sk_" = false ->
   new_VaultixClient config =
   inl (ThrownError "Error"
          "Invalid secret key format. Must start with sk_live_ or sk_test_")) /\
  (startsWith (Config.secretKey config) "sk_" = true ->
   exists c,
     new_VaultixClient config = inr c /\
     secretKey c = Config.secretKey config /\
     SDK.new_Vaultix config = inr {| SDK.client := c |}) /\
  (forall e, new_VaultixClient config = inl e ->
             SDK.new_Vaultix config = inl e).
Proof.
  unfold SDK.new_Vaultix, new_VaultixClient.
  destruct (Config.secretKey config) as [ | ch key].
  - split; [ reflexivity | split; [ congruence | split ] ].
    + intros Hsk. discriminate Hsk.
    + intros e [= <-]. reflexivity.
  - change (string_truthy (String ch key)) with true. cbv [negb].
    destruct (startsWith (String ch key) "sk_").
    + split; [ discriminate | split; [ discriminate | split ] ].
      * intros _. eexists. repeat split.
      * intros e He. discriminate He.
    + split; [ discriminate | split; [ reflexivity | split ] ].
      * discriminate.
      * intros e [= <-]. reflexivity.
Qed.

Lemma constructor_errors_witness :
  new_VaultixClient (Sample.config "" Undefined) =
  inl (ThrownError "Error" "Secret key is required") /\
  new_VaultixClient (Sample.config "pk_live_abc" Undefined) =
  inl (ThrownError "Error"
         "Invalid secret key format. Must start with sk_live_ or sk_test_") /\
  exists c, SDK.new_Vaultix (Sample.config "sk_live_abc" Undefined) =
            inr {| SDK.client := c |}.
Proof.
  split; [ | split ].
  - apply (constructor_errors (Sample.config "" Undefined)). reflexivity.
  - apply (constructor_errors (Sample.config "pk_live_abc" Undefined));
      [ discriminate | reflexivity ].
  - destruct (constructor_errors (Sample.config "sk_live_abc" Undefined))
      as (_ & _ & Hbuilt & _).
    destruct (Hbuilt eq_refl) as (c & _ & _ & Hsdk).
    exists c. exact Hsdk.
Defined.

(** ** A body without an error to pass on *)

(** X14.  A response that is not ok and is not retried, whose body is not
    [null] and has no [error] member, or one that is [null], [false], 0 or
    empty, is thrown as a [VaultixAPIError] of type [api_error] and code
    [unknown_error] that carries the status of the response. *)
Theorem missing_error_member_gives_unknown_error
    (host : Host) (this : VaultixClient) (method : Method) (path : string)
    (data : option Entries) (status : Z) (json err_member : Value)
    (rest : list FetchOutcome) (n : nat) :
  URL_valid host path (baseUrl this) = true ->
  response_ok status = false ->
  shouldRetry this status n = false ->
  member json "error" = Some err_member ->
  truthy err_member = false ->
  exists err,
    request host (Responded status (Parsed json) :: rest)
      this method path data n =
    settle (Throw (ExnAPI err)) this
      [EvFetch (request_call host this method path data)] rest /\
    type err = VStr "api_error" /\
    code err = VStr "unknown_error" /\
    message err = ToString host (VStr "An unknown error occurred") /\
    param err = VUndefined /\
    statusCode err = status.
Proof.
  intros Hurl Hok Hretry Hmember Hfalsy.
  exists (new_VaultixAPIError host unknown_error_literal status).
  split; [ | repeat split ].
  rewrite request_step by assumption.
  unfold attempt, try_block. rewrite Hok, Hretry, Hmember, Hfalsy.
  reflexivity.
Qed.

Lemma missing_error_member_gives_unknown_error_witness :
  let c := Sample.client "sk_test_abc" (Fin 3) in
  exists err,
    completion (request Sample.host
                  [Responded 404 (Parsed (VObj [])); Sample.success]
                  c GET "/v1/charges/ch_missing" None 0) =
    Throw (ExnAPI err) /\
    code err = VStr "unknown_error" /\
    message err = "An unknown error occurred" /\
    statusCode err = 404%Z.
Proof.
  cbv zeta.
  destruct (missing_error_member_gives_unknown_error Sample.host
              (Sample.client "sk_test_abc" (Fin 3)) GET
              "/v1/charges/ch_missing" None 404 (VObj []) VUndefined
              [Sample.success] 0 eq_refl eq_refl eq_refl eq_refl eq_refl)
    as (err & Hrun & _ & Hcode & Hmessage & _ & Hstatus).
  exists err. rewrite Hrun. repeat split; assumption.
Defined.

(** ** The resource classes *)

Lemma request_first_event (host : Host) (net : list FetchOutcome)
    (this : VaultixClient) (method : Method) (path : string)
    (data : option Entries) (n : nat) :
  URL_valid host path (baseUrl this) = true ->
  exists more,
    trace (request host net this method path data n) =
    EvFetch (request_call host this method path data) :: more.
Proof.
  intros Hurl.
  destruct (request_trace host this method path data net n Hurl) as [k ->].
  destruct k as [ | k]; [ exists [] | rewrite retry_rounds_S ];
    simpl; eauto.
Qed.

(** X11.  [transactions.summary()] asks for the last 30 days: without an
    argument it runs as [summary('30d')].  Every fetch of [summary] is a
    GET of [/v1/transactions/summary] without a body whose query string is
    the single pair [period] and the period. *)
Theorem summary_sends_its_period
    (host : Host) (net : Network) (client : VaultixClient)
    (period : option string) :
  Transactions.summary host net client None =
  Transactions.summary host net client (Some "30d") /\
  Forall (fun call =>
            fc_method call = GET /\
            url_input (fc_url call) = "/v1/transactions/summary" /\
            searchParams (fc_url call) =
            [("period",
              ToString host
                (VStr match period with Some p => p | None => "30d" end))] /\
            fc_body call = None)
         (fetches (trace (Transactions.summary host net client period))).
Proof.
  split; [ reflexivity | ].
  unfold Transactions.summary, get.
  destruct (request_fetches_and_sleeps host net client GET
              "/v1/transactions/summary"
              (Some [("period",
                      VStr match period with Some p => p | None => "30d" end)])
              0) as (j & _ & -> & _).
  apply Forall_forall. intros call Hin. apply repeat_spec in Hin. subst call.
  repeat split.
Qed.

(** X12.  The sandbox methods do not look at [isTestMode]: on any client,
    a live one included, each of them sends its request to its sandbox
    endpoint as soon as the URL of that endpoint parses. *)
Theorem sandbox_is_not_guarded_by_mode
    (host : Host) (net : Network) (client : VaultixClient)
    (id : string) (params : option Entries) :
  let sent (r : Run) (method : Method) (path : string)
           (data : option Entries) :=
    URL_valid host path (baseUrl client) = true ->
    exists more,
      trace r = EvFetch (request_call host client method path data) :: more in
  sent (Sandbox.payCharge host net client id)
       POST ("/v1/sandbox/charges/" ++ id ++ "/pay")%string None /\
  sent (Sandbox.failCharge host net client id params)
       POST ("/v1/sandbox/charges/" ++ id ++ "/fail")%string params /\
  sent (Sandbox.expireCharge host net client id)
       POST ("/v1/sandbox/charges/" ++ id ++ "/expire")%string None /\
  sent (Sandbox.succeedRefund host net client id)
       POST ("/v1/sandbox/refunds/" ++ id ++ "/succeed")%string None /\
  sent (Sandbox.testWebhook host net client params)
       POST "/v1/sandbox/webhooks/test" params /\
  sent (Sandbox.listTestCards host net client)
       GET "/v1/sandbox/test-cards" None.
Proof.
  cbv zeta.
  repeat split; intros Hurl; apply request_first_event, Hurl.
Qed.

Lemma sandbox_is_not_guarded_by_mode_witness :
  let live := Sample.client "sk_live_abc" (Fin 3) in
  isTestMode live = false /\
  URL_valid Sample.host "/v1/sandbox/charges/ch_abc123/pay" (baseUrl live)
  = true /\
  exists more,
    trace (Sandbox.payCharge Sample.host [Sample.success] live "ch_abc123") =
    EvFetch (request_call Sample.host live POST
               "/v1/sandbox/charges/ch_abc123/pay" None) :: more.
Proof.
  cbv zeta. split; [ reflexivity | ]. split; [ reflexivity | ].
  apply (sandbox_is_not_guarded_by_mode Sample.host [Sample.success]
           (Sample.client "sk_live_abc" (Fin 3)) "ch_abc123" None).
  reflexivity.
Defined.

(** X13.  A charge can be created twice by one [charges.create]: when the
    response to the POST cannot be read, whatever its status (a 200
    included), and at least one retry is allowed, the same POST with the
    same body is sent again, and the call returns the body of the second
    response. *)
Theorem unreadable_response_resends_create
    (host : Host) (client : VaultixClient) (params : Entries) (m : nat)
    (status : Z) (kind : BodyFailure) (msg : string)
    (status' : Z) (json : Value) (rest : Network) :
  URL_valid host "/v1/charges" (baseUrl client) = true ->
  maxRetries client = Fin (Z.of_nat (S m)) ->
  response_ok status' = true ->
  let call := request_call host client POST "/v1/charges" (Some params) in
  let r :=
    Charges.create host
      (Responded status (Unreadable kind msg)
       :: Responded status' (Parsed json) :: rest)
      client params in
  completion r = Return json /\
  fetches (trace r) = [call; call] /\
  sleeps (trace r) = [1000%Z] /\
  fc_method call = POST /\
  fc_body call = Some (JSON_stringify params) /\
  unread r = rest.
Proof.
  intros Hurl Hmax Hok. cbv zeta. unfold Charges.create, post.
  change (Responded status (Unreadable kind msg)
          :: Responded status' (Parsed json) :: rest)
    with ([Responded status (Unreadable kind msg)]
          ++ Responded status' (Parsed json) :: rest).
  rewrite (request_recovers_after_failures host client POST "/v1/charges"
             (Some params) (S m) [Responded status (Unreadable kind msg)] 0
             status' json rest Hurl Hmax).
  - repeat split.
  - constructor; [ | constructor ]. simpl. apply orb_true_r.
  - simpl. lia.
  - exact Hok.
Qed.

Lemma unreadable_response_resends_create_witness :
  let c := Sample.client "sk_test_abc" (Fin 3) in
  let params := [("amount", VNum (Fin 5000)); ("payment_method", VStr "pix")] in
  List.length
    (fetches (trace (Charges.create Sample.host
                       [Responded 200 (Unreadable SyntaxError "Unexpected end of JSON input");
                        Sample.success]
                       c params))) = 2.
Proof.
  cbv zeta.
  destruct (unreadable_response_resends_create Sample.host
              (Sample.client "sk_test_abc" (Fin 3))
              [("amount", VNum (Fin 5000)); ("payment_method", VStr "pix")]
              2 200 SyntaxError "Unexpected end of JSON input"
              200 Sample.ok_body [] eq_refl eq_refl eq_refl)
    as (_ & Hfetches & _).
  exact (f_equal (@List.length FetchCall) Hfetches).
Defined.

(** ** The shape of the back-off *)

(** X15.  The back-off delay never shrinks from one retry to the next and
    always lies between one and ten seconds. *)
Theorem backoff_delay_monotone_and_bounded (n : nat) :
  (1000 <= getRetryDelay n <= 10000)%Z /\
  (getRetryDelay n <= getRetryDelay (S n))%Z.
Proof.
  rewrite getRetryDelay_doubles.
  unfold getRetryDelay.
  assert (1 <= 2 ^ Z.of_nat n)%Z.
  { change 1%Z with (2 ^ 0)%Z. apply Z.pow_le_mono_r; lia. }
  lia.
Qed.
